(** * Cache-aside catalogue API with request metrics

    A shallow embedding of
    [DevOps_Learning_Hub/07_Ecommerce_App_Polish/src/backend/app.py]:
    the module-level [PRODUCTS] list, the optional Redis client, the two
    cache helpers, the three catalogue views, the health and metrics views
    and the before/after request hooks feeding the Prometheus counters.

    Python statements become computations in a state-and-exception monad
    over a [world] record; an exception leaves every mutation made before
    it in place, as in Python. *)

From Stdlib Require Import ZArith Lia Ascii String.
From stdpp Require Import base option list strings pretty gmap.

Local Open Scope string_scope.
Local Open Scope Z_scope.
Local Open Scope list_scope.

(** ** JSON values *)

Local Set Warnings "-register-all".

(** What [json.loads] produces and [jsonify]/[json.dumps] consume.  Python's
    [None] is [JNull].  A float is kept as the decimal it was written as,
    [JFloat m e] standing for [m * 10^e]; the program never computes with
    prices, it only stores and returns them. *)
Inductive json : Type :=
| JNull
| JBool (b : bool)
| JInt (n : Z)
| JFloat (m e : Z)
| JStr (s : string)
| JArr (items : list json)
| JObj (fields : list (string * json)).

(** Python truthiness, as tested by [if x:] and [not x]. *)
Definition truthy (v : json) : bool :=
  match v with
  | JNull => false
  | JBool b => b
  | JInt n => negb (n =? 0)
  | JFloat m _ => negb (m =? 0)
  | JStr s => negb (String.eqb s "")
  | JArr items => match items with [] => false | _ => true end
  | JObj fields => match fields with [] => false | _ => true end
  end.

(** [d.get(k)] on a dict: the bound value, or [None]. *)
Fixpoint dict_get (k : string) (fields : list (string * json)) : json :=
  match fields with
  | [] => JNull
  | (k', v) :: rest => if String.eqb k k' then v else dict_get k rest
  end.

(** ** Bytes held by the cache backend *)

(** A Redis value is a byte string.  The program does two things with one:
    it tests it for emptiness and it hands it to [json.loads].  The byte
    string is therefore represented by what those two observations see:
    the empty string, a JSON text (identified with the value it denotes,
    which is what [json.dumps] writes), or some other non-empty bytes that
    [json.loads] rejects. *)
Inductive bytes : Type :=
| BytesEmpty
| BytesJson (v : json)
| BytesOther (raw : string).

Definition bytes_truthy (b : bytes) : bool :=
  match b with
  | BytesEmpty => false
  | _ => true
  end.

(** ** Catalogue records *)

(** One element of [PRODUCTS]: a dict with exactly the keys
    [id], [name], [price], [category]; [id] is always an [int]. *)
Record product : Type := Product {
  p_id : Z;
  p_name : json;
  p_price : json;
  p_category : json
}.

Definition product_dict (p : product) : json :=
  JObj [("id", JInt (p_id p)); ("name", p_name p);
        ("price", p_price p); ("category", p_category p)].

Definition products_json (ps : list product) : json :=
  JArr (map product_dict ps).

(** ** Log records *)

Inductive log_record : Type :=
| LogCacheHit (key : string)
| LogCacheSet (key : string)
| LogRetrievingAll
| LogRetrieving (product_id : Z)
| LogNotFound (product_id : Z)
| LogCreated (p : product)
| LogInvalidated.

(** ** Exceptions *)

Inductive exn : Type :=
| RedisError
| JSONDecodeError
| AttributeError.

(** ** The world *)

Definition count_label : Type := string * string * string * Z.
Definition latency_label : Type := string * string * string.

Record world : Type := World {
  PRODUCTS : list product;
  (** [redis_client]: [true] for a client object, [false] for [None]. *)
  redis_client : bool;
  (** The backend: key to (value, instant at which the key expires). *)
  redis_db : gmap string (bytes * Z);
  (** The backend's clock, in seconds. *)
  redis_now : Z;
  (** Fate of the coming backend calls, in order: [true] makes the call
      raise.  Once the list is used up, calls succeed. *)
  redis_faults : list bool;
  (** Coming readings of [time.time()], in order; when used up the clock
      stays at [clock_last]. *)
  clock : list Z;
  clock_last : Z;
  log : list log_record;
  REQUEST_COUNT : gmap count_label nat;
  REQUEST_LATENCY : gmap latency_label (list Z)
}.

Definition set_PRODUCTS (ps : list product) (w : world) : world :=
  World ps (redis_client w) (redis_db w) (redis_now w) (redis_faults w)
        (clock w) (clock_last w) (log w) (REQUEST_COUNT w) (REQUEST_LATENCY w).

Definition set_redis_db (db : gmap string (bytes * Z)) (w : world) : world :=
  World (PRODUCTS w) (redis_client w) db (redis_now w) (redis_faults w)
        (clock w) (clock_last w) (log w) (REQUEST_COUNT w) (REQUEST_LATENCY w).

Definition set_redis_now (t : Z) (w : world) : world :=
  World (PRODUCTS w) (redis_client w) (redis_db w) t (redis_faults w)
        (clock w) (clock_last w) (log w) (REQUEST_COUNT w) (REQUEST_LATENCY w).

Definition set_redis_faults (fs : list bool) (w : world) : world :=
  World (PRODUCTS w) (redis_client w) (redis_db w) (redis_now w) fs
        (clock w) (clock_last w) (log w) (REQUEST_COUNT w) (REQUEST_LATENCY w).

Definition set_clock (ts : list Z) (last : Z) (w : world) : world :=
  World (PRODUCTS w) (redis_client w) (redis_db w) (redis_now w) (redis_faults w)
        ts last (log w) (REQUEST_COUNT w) (REQUEST_LATENCY w).

Definition set_log (l : list log_record) (w : world) : world :=
  World (PRODUCTS w) (redis_client w) (redis_db w) (redis_now w) (redis_faults w)
        (clock w) (clock_last w) l (REQUEST_COUNT w) (REQUEST_LATENCY w).

Definition set_REQUEST_COUNT (c : gmap count_label nat) (w : world) : world :=
  World (PRODUCTS w) (redis_client w) (redis_db w) (redis_now w) (redis_faults w)
        (clock w) (clock_last w) (log w) c (REQUEST_LATENCY w).

Definition set_REQUEST_LATENCY (h : gmap latency_label (list Z)) (w : world) : world :=
  World (PRODUCTS w) (redis_client w) (redis_db w) (redis_now w) (redis_faults w)
        (clock w) (clock_last w) (log w) (REQUEST_COUNT w) h.

(** ** The monad *)

Inductive outcome (A : Type) : Type :=
| Ret (a : A)
| Raise (e : exn).
Arguments Ret {A} a.
Arguments Raise {A} e.

Definition M (A : Type) : Type := world -> outcome A * world.

Definition ret {A} (a : A) : M A := fun w => (Ret a, w).
Definition raise {A} (e : exn) : M A := fun w => (Raise e, w).
Definition bind {A B} (m : M A) (k : A -> M B) : M B :=
  fun w =>
    match m w with
    | (Ret a, w') => k a w'
    | (Raise e, w') => (Raise e, w')
    end.

(** [try: m except Exception as e: h e] *)
Definition try_except {A} (m : M A) (h : exn -> M A) : M A :=
  fun w =>
    match m w with
    | (Ret a, w') => (Ret a, w')
    | (Raise e, w') => h e w'
    end.

Definition gets {A} (f : world -> A) : M A := fun w => (Ret (f w), w).
Definition modify (f : world -> world) : M unit := fun w => (Ret tt, f w).

Declare Scope py_scope.
Delimit Scope py_scope with py.
Notation "x <- m ;; k" := (bind m (fun x => k))
  (at level 100, m at next level, right associativity) : py_scope.
Notation "m ;;; k" := (bind m (fun _ => k))
  (at level 100, right associativity) : py_scope.
Local Open Scope py_scope.

(** ** Library primitives *)

(** [logger.info] / [logger.warning]. *)
Definition logger (r : log_record) : M unit :=
  modify (fun w => set_log (log w ++ [r]) w).

(** [time.time()]. *)
Definition time_time : M Z :=
  fun w =>
    match clock w with
    | t :: ts => (Ret t, set_clock ts t w)
    | [] => (Ret (clock_last w), w)
    end.

(** [json.loads] and [json.dumps]. *)
Definition json_loads (b : bytes) : M json :=
  match b with
  | BytesJson v => ret v
  | _ => raise JSONDecodeError
  end.

Definition json_dumps (v : json) : bytes := BytesJson v.

(** Every call on the client first meets the backend: it raises when the
    backend is faulty at that moment. *)
Definition redis_call : M unit :=
  fun w =>
    match redis_faults w with
    | true :: fs => (Raise RedisError, set_redis_faults fs w)
    | false :: fs => (Ret tt, set_redis_faults fs w)
    | [] => (Ret tt, w)
    end.

Definition live_value (now : Z) (entry : option (bytes * Z)) : option bytes :=
  match entry with
  | Some (b, deadline) => if now <? deadline then Some b else None
  | None => None
  end.

(** [redis_client.get(key)]: the bytes, or [None] for a missing or expired key. *)
Definition redis_get (key : string) : M (option bytes) :=
  redis_call ;;;
  gets (fun w => live_value (redis_now w) (redis_db w !! key)).

(** [redis_client.setex(key, expires, value)]. *)
Definition redis_setex (key : string) (expires : Z) (value : bytes) : M unit :=
  redis_call ;;;
  modify (fun w => set_redis_db (<[key := (value, redis_now w + expires)]> (redis_db w)) w).

(** [redis_client.delete(key)]. *)
Definition redis_delete (key : string) : M unit :=
  redis_call ;;;
  modify (fun w => set_redis_db (delete key (redis_db w)) w).

(** ** Cache implementation *)

Definition get_cached_data (key : string) : M json :=
  client <- gets redis_client ;;
  if client then
    cached <- redis_get key ;;
    match cached with
    | Some b =>
        if bytes_truthy b then
          logger (LogCacheHit key) ;;;
          json_loads b
        else ret JNull
    | None => ret JNull
    end
  else ret JNull.

Definition set_cached_data (key : string) (data : json) (expires : Z) : M unit :=
  client <- gets redis_client ;;
  if client then
    redis_setex key expires (json_dumps data) ;;;
    logger (LogCacheSet key)
  else ret tt.

(** ** Responses *)

Inductive body : Type :=
| Json (v : json)                      (* [jsonify(v)] *)
| Exposition (counts : gmap count_label nat)
             (latencies : gmap latency_label (list Z))
                                       (* [prometheus_client.generate_latest()] *)
| ErrorPage                            (* the framework's own error document *)
| NoContent.

Record response : Type := Response {
  body_of : body;
  status_code : Z
}.

Definition jsonify (v : json) : body := Json v.

(** ** API routes *)

Definition metrics : M response :=
  counts <- gets REQUEST_COUNT ;;
  latencies <- gets REQUEST_LATENCY ;;
  ret (Response (Exposition counts latencies) 200).

(** Clock readings are counted in microseconds. *)
Definition health_check : M response :=
  timestamp <- time_time ;;
  client <- gets redis_client ;;
  let health :=
    JObj [("status", JStr "up");
          ("timestamp", JFloat timestamp (-6));
          ("redis", JStr (if client then "connected" else "disconnected"))] in
  ret (Response (jsonify health) 200).

Definition get_products : M response :=
  let cache_key := "all_products" in
  cached_products <- get_cached_data cache_key ;;
  if truthy cached_products then
    ret (Response (jsonify cached_products) 200)
  else
    logger LogRetrievingAll ;;;
    products <- gets PRODUCTS ;;
    set_cached_data cache_key (products_json products) 3600 ;;;
    products <- gets PRODUCTS ;;
    ret (Response (jsonify (products_json products)) 200).

(** [f"product_{product_id}"] *)
Definition product_key (product_id : Z) : string :=
  "product_" +:+ pretty product_id.

(** [next((p for p in PRODUCTS if p["id"] == product_id), None)] *)
Definition next_product (product_id : Z) (products : list product) : json :=
  match List.find (fun p => p_id p =? product_id) products with
  | Some p => product_dict p
  | None => JNull
  end.

Definition get_product (product_id : Z) : M response :=
  let cache_key := product_key product_id in
  cached_product <- get_cached_data cache_key ;;
  if truthy cached_product then
    ret (Response (jsonify cached_product) 200)
  else
    logger (LogRetrieving product_id) ;;;
    products <- gets PRODUCTS ;;
    let product := next_product product_id products in
    if truthy product then
      set_cached_data cache_key product 3600 ;;;
      ret (Response (jsonify product) 200)
    else
      logger (LogNotFound product_id) ;;;
      ret (Response (jsonify (JObj [("error", JStr "Product not found")])) 404).

(** [request.json.get(k)]: only a dict has [get]. *)
Definition json_get (request_json : json) (k : string) : M json :=
  match request_json with
  | JObj fields => ret (dict_get k fields)
  | _ => raise AttributeError
  end.

Definition create_product (request_json : json) : M response :=
  if negb (truthy request_json) then
    ret (Response (jsonify (JObj [("error", JStr "Invalid request")])) 400)
  else
    products <- gets PRODUCTS ;;
    let id := Z.of_nat (length products) + 1 in
    name <- json_get request_json "name" ;;
    price <- json_get request_json "price" ;;
    category <- json_get request_json "category" ;;
    let new_product := Product id name price category in
    modify (fun w => set_PRODUCTS (PRODUCTS w ++ [new_product]) w) ;;;
    logger (LogCreated new_product) ;;;
    client <- gets redis_client ;;
    (if client then
       redis_delete "all_products" ;;;
       logger LogInvalidated
     else ret tt) ;;;
    ret (Response (jsonify (product_dict new_product)) 201).

(** ** Requests and URL rules *)

Inductive http_method : Type :=
| GET | HEAD | POST | PUT | PATCH | DELETE | OPTIONS.

(** [request.method] *)
Definition method_name (m : http_method) : string :=
  match m with
  | GET => "GET" | HEAD => "HEAD" | POST => "POST" | PUT => "PUT"
  | PATCH => "PATCH" | DELETE => "DELETE" | OPTIONS => "OPTIONS"
  end.

(** [request_json] is the value of [request.json]; [JNull] stands for
    [None], which is also what a request without a JSON document gives. *)
Record request : Type := Request {
  method : http_method;
  path : string;
  request_json : json
}.

(** The URL rules declared with [@app.route]. *)
Inductive url_rule : Type :=
| RuleMetrics
| RuleHealth
| RuleProducts
| RuleProduct.

Definition rule_template (r : url_rule) : string :=
  match r with
  | RuleMetrics => "/metrics"
  | RuleHealth => "/health"
  | RuleProducts => "/api/products"
  | RuleProduct => "/api/products/<int:product_id>"
  end.

Definition declared_rules : list url_rule :=
  [RuleMetrics; RuleHealth; RuleProducts; RuleProduct].

Fixpoint strip_prefix (p s : string) : option string :=
  match p, s with
  | EmptyString, _ => Some s
  | String a p', String b s' => if Ascii.eqb a b then strip_prefix p' s' else None
  | String _ _, EmptyString => None
  end.

Definition digit_value (c : ascii) : option Z :=
  let n := Z.of_N (N_of_ascii c) in
  if (48 <=? n) && (n <=? 57) then Some (n - 48) else None.

Fixpoint digits_value (acc : Z) (s : string) : option Z :=
  match s with
  | EmptyString => Some acc
  | String c rest =>
      match digit_value c with
      | Some d => digits_value (10 * acc + d) rest
      | None => None
      end
  end.

(** The [int] converter of a rule: one or more decimal digits. *)
Definition int_converter (s : string) : option Z :=
  match s with
  | EmptyString => None
  | _ => digits_value 0 s
  end.

(** The rule a path matches, with the view argument of [RuleProduct]. *)
Definition match_url (p : string) : option (url_rule * Z) :=
  if String.eqb p "/metrics" then Some (RuleMetrics, 0)
  else if String.eqb p "/health" then Some (RuleHealth, 0)
  else if String.eqb p "/api/products" then Some (RuleProducts, 0)
  else match strip_prefix "/api/products/" p with
       | Some arg =>
           match int_converter arg with
           | Some product_id => Some (RuleProduct, product_id)
           | None => None
           end
       | None => None
       end.

(** Routing and the call of the view.  A rule declared for [GET] also
    answers [HEAD], and [OPTIONS] is answered by the framework. *)
Definition dispatch_request (req : request) : M response :=
  match match_url (path req) with
  | None => ret (Response ErrorPage 404)
  | Some (rule, product_id) =>
      match method req, rule with
      | OPTIONS, _ => ret (Response NoContent 200)
      | (GET | HEAD), RuleMetrics => metrics
      | (GET | HEAD), RuleHealth => health_check
      | (GET | HEAD), RuleProducts => get_products
      | POST, RuleProducts => create_product (request_json req)
      | (GET | HEAD), RuleProduct => get_product product_id
      | _, _ => ret (Response ErrorPage 405)
      end
  end.

(** ** Middleware for tracking request metrics *)

Definition app_name : string := "ecommerce-api".

(** [REQUEST_LATENCY.labels(...).observe(x)] *)
Definition observe (l : latency_label) (x : Z) : M unit :=
  modify (fun w =>
    set_REQUEST_LATENCY
      (<[l := default [] (REQUEST_LATENCY w !! l) ++ [x]]> (REQUEST_LATENCY w)) w).

(** [REQUEST_COUNT.labels(...).inc()] *)
Definition inc (l : count_label) : M unit :=
  modify (fun w =>
    set_REQUEST_COUNT
      (<[l := S (default 0%nat (REQUEST_COUNT w !! l))]> (REQUEST_COUNT w)) w).

(** [request.start_time = time.time()]; the attribute is handed on. *)
Definition before_request : M Z := time_time.

Definition after_request (req : request) (start_time : Z) (resp : response)
  : M response :=
  now <- time_time ;;
  let request_latency := now - start_time in
  observe (app_name, method_name (method req), path req) request_latency ;;;
  inc (app_name, method_name (method req), path req, status_code resp) ;;;
  ret resp.

(** One request through the application: the hooks run around the view,
    and an exception escaping the view becomes a 500 response. *)
Definition full_dispatch_request (req : request) : M response :=
  start_time <- before_request ;;
  resp <- try_except (dispatch_request req)
                     (fun _ => ret (Response ErrorPage 500)) ;;
  after_request req start_time resp.

(** ** Start-up and histories *)

Definition SAMPLE_PRODUCTS : list product :=
  [ Product 1 (JStr "Smartphone") (JFloat 69999 (-2)) (JStr "Electronics");
    Product 2 (JStr "Laptop") (JFloat 129999 (-2)) (JStr "Electronics");
    Product 3 (JStr "Headphones") (JFloat 19999 (-2)) (JStr "Electronics");
    Product 4 (JStr "T-shirt") (JFloat 2499 (-2)) (JStr "Clothing");
    Product 5 (JStr "Jeans") (JFloat 4999 (-2)) (JStr "Clothing") ].

(** The module after import.  [ping_ok] tells whether [redis_client.ping()]
    returned; when it raised, [redis_client] is [None].  The backend starts
    empty and answers every call; [ticks] are the coming clock readings. *)
Definition startup (ping_ok : bool) (ticks : list Z) : world :=
  {| PRODUCTS := SAMPLE_PRODUCTS;
     redis_client := ping_ok;
     redis_db := ∅;
     redis_now := 0;
     redis_faults := [];
     clock := ticks;
     clock_last := 0;
     log := [];
     REQUEST_COUNT := ∅;
     REQUEST_LATENCY := ∅ |}.

(** What happens to a running application. *)
Inductive event : Type :=
| Serve (req : request)       (* a request is handled *)
| Elapse (seconds : N)        (* time passes at the backend *)
| Evict (key : string).       (* the backend drops a key *)

Definition step (w : world) (e : event) : world :=
  match e with
  | Serve req => snd (full_dispatch_request req w)
  | Elapse seconds => set_redis_now (redis_now w + Z.of_N seconds) w
  | Evict key => set_redis_db (delete key (redis_db w)) w
  end.

Definition run (history : list event) (w : world) : world :=
  fold_left step history w.

(** The number of times the log says the source was searched for an id. *)
Definition is_lookup_of (product_id : Z) (r : log_record) : bool :=
  match r with
  | LogRetrieving i => i =? product_id
  | _ => false
  end.

Definition source_lookups (product_id : Z) (w : world) : nat :=
  length (List.filter (is_lookup_of product_id) (log w)).

(** ** Vocabulary of the statements *)

(** The live bytes the backend holds under a key. *)
Definition cached_bytes (key : string) (w : world) : option bytes :=
  live_value (redis_now w) (redis_db w !! key).

(** The record a write commits for a JSON object. *)
Definition committed (fields : list (string * json)) (w : world) : product :=
  Product (Z.of_nat (length (PRODUCTS w)) + 1)
          (dict_get "name" fields) (dict_get "price" fields)
          (dict_get "category" fields).

Definition not_found_body : body :=
  Json (JObj [("error", JStr "Product not found")]).

Definition invalid_request_body : body :=
  Json (JObj [("error", JStr "Invalid request")]).

(** A read of the catalogue: the listing or one item. *)
Definition is_catalogue_read (req : request) : bool :=
  match method req, match_url (path req) with
  | GET, Some (RuleProducts, _) => true
  | GET, Some (RuleProduct, _) => true
  | _, _ => false
  end.

(** [time.time()] read off the world: the reading and the world after it. *)
Definition next_reading (w : world) : Z :=
  match clock w with
  | t :: _ => t
  | [] => clock_last w
  end.

Definition advance_clock (w : world) : world :=
  match clock w with
  | t :: ts => set_clock ts t w
  | [] => w
  end.

(** The response the client gets for the outcome of a view. *)
Definition answer (o : outcome response) : response :=
  match o with
  | Ret resp => resp
  | Raise _ => Response ErrorPage 500
  end.

(** The registry after [after_request] has recorded one request. *)
Definition recorded (req : request) (latency : Z) (resp : response) (w : world)
  : world :=
  let l3 := (app_name, method_name (method req), path req) in
  let l4 := (app_name, method_name (method req), path req, status_code resp) in
  set_REQUEST_COUNT
    (<[l4 := S (default 0%nat (REQUEST_COUNT w !! l4))]> (REQUEST_COUNT w))
    (set_REQUEST_LATENCY
       (<[l3 := default [] (REQUEST_LATENCY w !! l3) ++ [latency]]>
          (REQUEST_LATENCY w)) w).

(** ** Concrete scenarios *)

Definition GET_products : request := Request GET "/api/products" JNull.
Definition GET_product (product_id : string) : request :=
  Request GET ("/api/products/" +:+ product_id) JNull.
Definition POST_products (payload : json) : request :=
  Request POST "/api/products" payload.

Definition widget : json :=
  JObj [("name", JStr "Widget"); ("price", JFloat 999 (-2));
        ("category", JStr "Tools")].

(** A payload with [price] and [category] absent. *)
Definition name_only : json := JObj [("name", JStr "Widget")].

(** A fresh application with a client whose next call raises. *)
Definition backend_down : world := set_redis_faults [true] (startup true []).

(** A fresh application with a client, after one listing has been served:
    the aggregate key is populated. *)
Definition listed : world := run [Serve GET_products] (startup true []).

(** A fresh application with a client whose backend holds the JSON text
    [null] under the key of item 99, an id the source does not have. *)
Definition null_cached : world :=
  set_redis_db {[ product_key 99 := (BytesJson JNull, 3600) ]} (startup true []).

(** ** Coherence of the cache with the source *)

(** Every entry of the backend is a copy of what [PRODUCTS] holds now:
    under the aggregate key the whole list, under an item key the record
    with that id. *)
Definition coherent (w : world) : Prop :=
  forall key b deadline,
    redis_db w !! key = Some (b, deadline) ->
    (key = "all_products" /\ b = BytesJson (products_json (PRODUCTS w))) \/
    (exists product_id,
        key = product_key product_id /\
        b = BytesJson (next_product product_id (PRODUCTS w)) /\
        truthy (next_product product_id (PRODUCTS w)) = true).

(** The backend answers every call, holds only copies of the source, and
    holds nothing at all when the application has no client. *)
Definition sound (w : world) : Prop :=
  redis_faults w = [] /\
  coherent w /\
  (redis_client w = false -> redis_db w = ∅).

(** What the source alone makes of a read and of a write. *)
Definition source_product (product_id : Z) (ps : list product) : response :=
  if truthy (next_product product_id ps)
  then Response (Json (next_product product_id ps)) 200
  else Response not_found_body 404.

Definition source_create (payload : json) (ps : list product)
  : outcome response * list product :=
  if negb (truthy payload) then (Ret (Response invalid_request_body 400), ps)
  else match payload with
       | JObj fields =>
           let new_product :=
             Product (Z.of_nat (length ps) + 1) (dict_get "name" fields)
                     (dict_get "price" fields) (dict_get "category" fields) in
           (Ret (Response (Json (product_dict new_product)) 201),
            ps ++ [new_product])
       | _ => (Raise AttributeError, ps)
       end.

(** [PRODUCTS] after a request, as the source alone determines it. *)
Definition source_after (req : request) (ps : list product) : list product :=
  match method req, match_url (path req) with
  | POST, Some (RuleProducts, _) => snd (source_create (request_json req) ps)
  | _, _ => ps
  end.

(** ** Vocabulary of the metrics statements *)

(** A computation leaves every world related by [R] to the one it started
    from. *)
Definition keeps {A} (R : world -> world -> Prop) (m : M A) : Prop :=
  forall w, R w (snd (m w)).

Definition same_registry (w w' : world) : Prop :=
  REQUEST_COUNT w' = REQUEST_COUNT w /\
  REQUEST_LATENCY w' = REQUEST_LATENCY w.

(** The coming clock readings never go back, starting from [from]. *)
Fixpoint nondecreasing (from : Z) (ts : list Z) : Prop :=
  match ts with
  | [] => True
  | t :: ts' => from <= t /\ nondecreasing t ts'
  end.

Definition clock_forward (w w' : world) : Prop :=
  nondecreasing (clock_last w) (clock w) ->
  nondecreasing (clock_last w') (clock w') /\ clock_last w <= clock_last w'.

(** What a view may do to the registry and the clock: nothing to the first,
    and only read the second. *)
Definition view_frame (w w' : world) : Prop :=
  same_registry w w' /\ clock_forward w w'.

(** A route, for the purpose of counting: the requests it takes, told by
    method and path. *)
Definition route : Type := string -> string -> bool.

(** The requests with one method to one path. *)
Definition exact_route (m p : string) : route :=
  fun m' p' => String.eqb m' m && String.eqb p' p.










(** A fresh application after three requests: two items the source does not
    have, and a path no rule matches. *)
Definition three_paths : world :=
  run [Serve (GET_product "7"); Serve (GET_product "8");
       Serve (Request GET "/no/such/page" JNull)]
      (startup true []).


(** ** Vocabulary of the cache-hit statement *)

(** The application has a client and an answering backend, the backend
    holds the truthy value [product] under the item's key until [deadline],
    and the source has been searched [lookups] times for the id. *)
Definition caching (product_id : Z) (product : json) (deadline : Z)
    (lookups : nat) (w : world) : Prop :=
  redis_client w = true /\
  redis_faults w = [] /\
  redis_db w !! product_key product_id = Some (BytesJson product, deadline) /\
  truthy product = true /\
  source_lookups product_id w = lookups.

(** The backend time a history takes. *)
Definition elapsed (history : list event) : Z :=
  fold_right (fun e total =>
                match e with
                | Elapse seconds => Z.of_N seconds + total
                | _ => total
                end) 0 history.

(** ** Vocabulary of the further properties *)

(** The ids of a list are 1, 2, 3, ... in the order of the list. *)
Definition numbered_from_one (ps : list product) : Prop :=
  forall i p, ps !! i = Some p -> p_id p = Z.of_nat i + 1.

(** The records a history of events appends to [PRODUCTS], as its POST
    payloads alone determine them. *)
Definition source_run (history : list event) (ps : list product)
  : list product :=
  fold_left (fun ps e =>
               match e with
               | Serve req => source_after req ps
               | _ => ps
               end) history ps.

(** The cache key a catalogue read looks up, and the answer [PRODUCTS]
    alone gives to it. *)
Definition cache_key_of (req : request) : string :=
  match match_url (path req) with
  | Some (RuleProduct, product_id) => product_key product_id
  | _ => "all_products"
  end.

Definition source_answer (req : request) (ps : list product) : response :=
  match match_url (path req) with
  | Some (RuleProduct, product_id) => source_product product_id ps
  | _ => Response (Json (products_json ps)) 200
  end.

(** A fresh application with a client whose backend holds bytes that are
    not JSON under the aggregate key. *)
Definition garbage_cached : world :=
  set_redis_db {[ "all_products" := (BytesOther "<html>", 3600) ]}
    (startup true []).

(** A fresh application with a client whose backend holds, under the key of
    item 99, a record that [PRODUCTS] does not have. *)
Definition ghost_cached : world :=
  set_redis_db
    {[ product_key 99 :=
         (BytesJson (product_dict (Product 99 (JStr "Ghost") JNull JNull)),
          3600) ]}
    (startup true []).

(** The value of a counter and the observations of a histogram, for a label
    that may not have been used yet. *)
Definition count_of (l : count_label) (w : world) : nat :=
  default 0%nat (REQUEST_COUNT w !! l).

Definition observations_of (l : latency_label) (w : world) : list Z :=
  default [] (REQUEST_LATENCY w !! l).



(** The event is a create that is accepted: a POST to [/api/products] with
    a non-empty JSON object. *)
Definition is_accepted_create (e : event) : bool :=
  match e with
  | Serve req =>
      match method req, match_url (path req), request_json req with
      | POST, Some (RuleProducts, _), JObj (_ :: _) => true
      | _, _, _ => false
      end
  | _ => false
  end.

(** A fresh application with a client whose backend holds the empty byte
    string under the aggregate key. *)
Definition empty_cached : world :=
  set_redis_db {[ "all_products" := (BytesEmpty, 3600) ]} (startup true []).

(** * Evaluation lemmas *)

Ltac py_monad :=
  cbv beta iota zeta delta
    [bind gets modify ret raise logger try_except
     redis_call redis_get redis_setex redis_delete json_dumps].

Ltac py_fields :=
  cbn [PRODUCTS redis_client redis_db redis_now redis_faults clock clock_last
       log REQUEST_COUNT REQUEST_LATENCY
       set_PRODUCTS set_redis_db set_redis_now set_redis_faults set_clock
       set_log set_REQUEST_COUNT set_REQUEST_LATENCY fst snd].

(** Run the monad as far as the known facts allow. *)
Ltac py := repeat (progress (py_monad; py_fields)).

Section CacheHelpers.
Variables (w : world) (key : string).

Lemma get_cached_data_no_client :
  redis_client w = false -> get_cached_data key w = (Ret JNull, w).
Proof. intros H. unfold get_cached_data. py. now rewrite H. Qed.

Lemma set_cached_data_no_client data expires :
  redis_client w = false -> set_cached_data key data expires w = (Ret tt, w).
Proof. intros H. unfold set_cached_data. py. now rewrite H. Qed.



Lemma get_cached_data_ok :
  redis_client w = true -> redis_faults w = [] ->
  get_cached_data key w =
    match cached_bytes key w with
    | Some b =>
        if bytes_truthy b
        then json_loads b (set_log (log w ++ [LogCacheHit key]) w)
        else (Ret JNull, w)
    | None => (Ret JNull, w)
    end.
Proof.
  intros Hc Hf. unfold get_cached_data, cached_bytes.
  py. rewrite Hc. py. rewrite Hf. py.
  destruct (live_value _ _) as [b|]; [|reflexivity].
  destruct (bytes_truthy b); reflexivity.
Qed.

Lemma set_cached_data_ok data expires :
  redis_client w = true -> redis_faults w = [] ->
  set_cached_data key data expires w =
    (Ret tt,
     set_log (log w ++ [LogCacheSet key])
       (set_redis_db
          (<[key := (BytesJson data, redis_now w + expires)]> (redis_db w)) w)).
Proof.
  intros Hc Hf. unfold set_cached_data.
  py. rewrite Hc. py. now rewrite Hf.
Qed.
End CacheHelpers.

Section CreateProduct.
Variable w : world.

Lemma create_product_rejected payload :
  truthy payload = false ->
  create_product payload w = (Ret (Response invalid_request_body 400), w).
Proof. intros H. unfold create_product. now rewrite H. Qed.

Lemma create_product_no_client fields :
  fields <> [] -> redis_client w = false ->
  create_product (JObj fields) w =
    (Ret (Response (Json (product_dict (committed fields w))) 201),
     set_log (log w ++ [LogCreated (committed fields w)])
       (set_PRODUCTS (PRODUCTS w ++ [committed fields w]) w)).
Proof.
  intros Hne Hc. unfold create_product, json_get, committed.
  destruct fields as [|f fs]; [congruence|].
  cbn [truthy negb]. py. now rewrite Hc.
Qed.

Lemma create_product_ok fields :
  fields <> [] -> redis_client w = true -> redis_faults w = [] ->
  create_product (JObj fields) w =
    (Ret (Response (Json (product_dict (committed fields w))) 201),
     set_log (log w ++ [LogCreated (committed fields w); LogInvalidated])
       (set_redis_db (delete "all_products" (redis_db w))
          (set_PRODUCTS (PRODUCTS w ++ [committed fields w]) w))).
Proof.
  intros Hne Hc Hf. unfold create_product, json_get, committed.
  destruct fields as [|f fs]; [congruence|].
  cbn [truthy negb]. py. rewrite Hc. py. rewrite Hf. py.
  now rewrite <- app_assoc.
Qed.

Lemma create_product_fault fields fs :
  fields <> [] -> redis_client w = true -> redis_faults w = true :: fs ->
  create_product (JObj fields) w =
    (Raise RedisError,
     set_redis_faults fs
       (set_log (log w ++ [LogCreated (committed fields w)])
          (set_PRODUCTS (PRODUCTS w ++ [committed fields w]) w))).
Proof.
  intros Hne Hc Hf. unfold create_product, json_get, committed.
  destruct fields as [|f fs']; [congruence|].
  cbn [truthy negb]. py. rewrite Hc. py. now rewrite Hf.
Qed.

(** A response from [create_product] with status 201 comes from a
    non-empty JSON object. *)
Lemma create_product_201 payload resp w' :
  create_product payload w = (Ret resp, w') -> status_code resp = 201 ->
  exists fields, payload = JObj fields /\ fields <> [].
Proof.
  intros Hrun Hst. unfold create_product in Hrun.
  destruct (truthy payload) eqn:Ht; cbn [negb] in Hrun.
  - destruct payload; try (unfold json_get in Hrun; py; discriminate).
    exists fields. split; [reflexivity|]. now destruct fields.
  - unfold ret in Hrun. injection Hrun as <- _. discriminate.
Qed.
End CreateProduct.

Section ReadPaths.
Variable w : world.

(** What a cache read can do when the backend answers. *)
Lemma get_cached_data_answers key :
  redis_client w = false \/ redis_faults w = [] ->
  get_cached_data key w = (Ret JNull, w)
  \/ (exists v, redis_client w = true /\
                cached_bytes key w = Some (BytesJson v) /\
                get_cached_data key w =
                  (Ret v, set_log (log w ++ [LogCacheHit key]) w))
  \/ (exists raw, redis_client w = true /\
                  cached_bytes key w = Some (BytesOther raw) /\
                  get_cached_data key w =
                    (Raise JSONDecodeError,
                     set_log (log w ++ [LogCacheHit key]) w)).
Proof.
  intros H. destruct (redis_client w) eqn:Hc.
  - destruct H as [H|Hf]; [discriminate|].
    rewrite get_cached_data_ok by assumption.
    destruct (cached_bytes key w) as [[|v|raw]|]; cbn; eauto 8.
  - left. now apply get_cached_data_no_client.
Qed.

Lemma get_products_hit v w1 :
  get_cached_data "all_products" w = (Ret v, w1) -> truthy v = true ->
  get_products w = (Ret (Response (Json v) 200), w1).
Proof.
  intros Hg Ht. unfold get_products. py. rewrite Hg. py. now rewrite Ht.
Qed.

Lemma get_products_miss v w1 :
  get_cached_data "all_products" w = (Ret v, w1) -> truthy v = false ->
  get_products w =
    (logger LogRetrievingAll ;;;
     products <- gets PRODUCTS ;;
     set_cached_data "all_products" (products_json products) 3600 ;;;
     products <- gets PRODUCTS ;;
     ret (Response (jsonify (products_json products)) 200)) w1.
Proof.
  intros Hg Ht. unfold get_products. py. rewrite Hg. py. now rewrite Ht.
Qed.

Lemma get_products_raise e w1 :
  get_cached_data "all_products" w = (Raise e, w1) ->
  get_products w = (Raise e, w1).
Proof. intros Hg. unfold get_products. py. now rewrite Hg. Qed.

Lemma get_product_hit product_id v w1 :
  get_cached_data (product_key product_id) w = (Ret v, w1) ->
  truthy v = true ->
  get_product product_id w = (Ret (Response (Json v) 200), w1).
Proof.
  intros Hg Ht. unfold get_product. py. rewrite Hg. py. now rewrite Ht.
Qed.

Lemma get_product_miss product_id v w1 :
  get_cached_data (product_key product_id) w = (Ret v, w1) ->
  truthy v = false ->
  get_product product_id w =
    (logger (LogRetrieving product_id) ;;;
     products <- gets PRODUCTS ;;
     let product := next_product product_id products in
     if truthy product then
       set_cached_data (product_key product_id) product 3600 ;;;
       ret (Response (jsonify product) 200)
     else
       logger (LogNotFound product_id) ;;;
       ret (Response not_found_body 404)) w1.
Proof.
  intros Hg Ht. unfold get_product. py. rewrite Hg. py. now rewrite Ht.
Qed.

Lemma get_product_raise product_id e w1 :
  get_cached_data (product_key product_id) w = (Raise e, w1) ->
  get_product product_id w = (Raise e, w1).
Proof. intros Hg. unfold get_product. py. now rewrite Hg. Qed.
End ReadPaths.

(** The source side of the two reads, once the cache has not answered. *)
Section SourceLoad.
Variable w : world.

Lemma load_products_no_client :
  redis_client w = false ->
  (logger LogRetrievingAll ;;;
   products <- gets PRODUCTS ;;
   set_cached_data "all_products" (products_json products) 3600 ;;;
   products <- gets PRODUCTS ;;
   ret (Response (jsonify (products_json products)) 200)) w =
  (Ret (Response (Json (products_json (PRODUCTS w))) 200),
   set_log (log w ++ [LogRetrievingAll]) w).
Proof.
  intros Hc. py.
  rewrite set_cached_data_no_client by exact Hc. reflexivity.
Qed.

Lemma load_products_ok :
  redis_client w = true -> redis_faults w = [] ->
  (logger LogRetrievingAll ;;;
   products <- gets PRODUCTS ;;
   set_cached_data "all_products" (products_json products) 3600 ;;;
   products <- gets PRODUCTS ;;
   ret (Response (jsonify (products_json products)) 200)) w =
  (Ret (Response (Json (products_json (PRODUCTS w))) 200),
   set_log (log w ++ [LogRetrievingAll; LogCacheSet "all_products"])
     (set_redis_db
        (<["all_products" :=
             (BytesJson (products_json (PRODUCTS w)), redis_now w + 3600)]>
           (redis_db w)) w)).
Proof.
  intros Hc Hf. py.
  rewrite set_cached_data_ok by assumption. py.
  now rewrite <- app_assoc.
Qed.

Lemma load_product_absent product_id :
  truthy (next_product product_id (PRODUCTS w)) = false ->
  (logger (LogRetrieving product_id) ;;;
   products <- gets PRODUCTS ;;
   let product := next_product product_id products in
   if truthy product then
     set_cached_data (product_key product_id) product 3600 ;;;
     ret (Response (jsonify product) 200)
   else
     logger (LogNotFound product_id) ;;;
     ret (Response not_found_body 404)) w =
  (Ret (Response not_found_body 404),
   set_log (log w ++ [LogRetrieving product_id; LogNotFound product_id]) w).
Proof.
  intros Hn. py. rewrite Hn. py. now rewrite <- app_assoc.
Qed.

Lemma load_product_no_client product_id :
  truthy (next_product product_id (PRODUCTS w)) = true ->
  redis_client w = false ->
  (logger (LogRetrieving product_id) ;;;
   products <- gets PRODUCTS ;;
   let product := next_product product_id products in
   if truthy product then
     set_cached_data (product_key product_id) product 3600 ;;;
     ret (Response (jsonify product) 200)
   else
     logger (LogNotFound product_id) ;;;
     ret (Response not_found_body 404)) w =
  (Ret (Response (Json (next_product product_id (PRODUCTS w))) 200),
   set_log (log w ++ [LogRetrieving product_id]) w).
Proof.
  intros Hn Hc. py. rewrite Hn. py.
  rewrite set_cached_data_no_client by exact Hc. reflexivity.
Qed.

Lemma load_product_ok product_id :
  truthy (next_product product_id (PRODUCTS w)) = true ->
  redis_client w = true -> redis_faults w = [] ->
  (logger (LogRetrieving product_id) ;;;
   products <- gets PRODUCTS ;;
   let product := next_product product_id products in
   if truthy product then
     set_cached_data (product_key product_id) product 3600 ;;;
     ret (Response (jsonify product) 200)
   else
     logger (LogNotFound product_id) ;;;
     ret (Response not_found_body 404)) w =
  (Ret (Response (Json (next_product product_id (PRODUCTS w))) 200),
   set_log (log w ++ [LogRetrieving product_id;
                      LogCacheSet (product_key product_id)])
     (set_redis_db
        (<[product_key product_id :=
             (BytesJson (next_product product_id (PRODUCTS w)),
              redis_now w + 3600)]> (redis_db w)) w)).
Proof.
  intros Hn Hc Hf. py. rewrite Hn. py.
  rewrite set_cached_data_ok by assumption. py.
  now rewrite <- app_assoc.
Qed.
End SourceLoad.

Section Middleware.
Variables (req : request) (w : world).

Lemma time_time_eq : time_time w = (Ret (next_reading w), advance_clock w).
Proof.
  unfold time_time, next_reading, advance_clock. now destruct (clock w).
Qed.

Lemma after_request_eq start_time resp :
  after_request req start_time resp w =
    (Ret resp,
     recorded req (next_reading w - start_time) resp (advance_clock w)).
Proof.
  unfold after_request, observe, inc. py. rewrite time_time_eq. reflexivity.
Qed.
End Middleware.

Lemma full_dispatch_request_eq req w :
  full_dispatch_request req w =
    let (o, w1) := dispatch_request req (advance_clock w) in
    (Ret (answer o),
     recorded req (next_reading w1 - next_reading w) (answer o)
       (advance_clock w1)).
Proof.
  unfold full_dispatch_request, before_request. py. rewrite time_time_eq.
  destruct (dispatch_request req (advance_clock w)) as [[resp|e] w1];
    py; now rewrite after_request_eq.
Qed.

(** The clock and the registry are the only things the hooks touch. *)
Lemma advance_clock_store w :
  PRODUCTS (advance_clock w) = PRODUCTS w /\
  redis_client (advance_clock w) = redis_client w /\
  redis_db (advance_clock w) = redis_db w /\
  redis_now (advance_clock w) = redis_now w /\
  redis_faults (advance_clock w) = redis_faults w /\
  log (advance_clock w) = log w.
Proof. unfold advance_clock. now destruct (clock w). Qed.


Lemma dict_get_absent k fields :
  (forall v, ~ In (k, v) fields) -> dict_get k fields = JNull.
Proof.
  induction fields as [|[k' v'] rest IH]; intros Habs; [reflexivity|].
  cbn [dict_get]. destruct (String.eqb k k') eqn:E.
  - apply String.eqb_eq in E. subst k'. exfalso. apply (Habs v'). now left.
  - apply IH. intros v Hin. apply (Habs v). now right.
Qed.

(** * The cache helpers under faults *)




(** * The write path *)

(** C3, as amended.  The only check [create_product] makes is the truthiness
    of [request.json]: a falsy one ([None], an empty object or list, ...) is
    answered 400 with the world untouched, so nothing is committed and the
    cache is not called.  A non-empty object is accepted whichever fields it
    has: [name], [price] and [category] are read with [get], an absent one is
    stored as [null], the record is appended and the answer is 201. *)
Theorem create_product_checks_truthiness_only (w : world) (payload : json) :
  (truthy payload = false ->
     create_product payload w = (Ret (Response invalid_request_body 400), w))
  /\
  (forall fields,
     payload = JObj fields -> fields <> [] ->
     redis_client w = false \/ redis_faults w = [] ->
     fst (create_product payload w) =
       Ret (Response (Json (product_dict (committed fields w))) 201) /\
     PRODUCTS (snd (create_product payload w)) =
       PRODUCTS w ++ [committed fields w] /\
     (forall k, (forall v, ~ In (k, v) fields) -> dict_get k fields = JNull)).
Proof.
  split.
  - apply create_product_rejected.
  - intros fields -> Hne Hback. destruct (redis_client w) eqn:Hc.
    + destruct Hback as [|Hf]; [discriminate|].
      rewrite create_product_ok by assumption.
      split; [reflexivity | split; [reflexivity |]].
      intros k. apply dict_get_absent.
    + rewrite create_product_no_client by assumption.
      split; [reflexivity | split; [reflexivity |]].
      intros k. apply dict_get_absent.
Qed.

Lemma create_product_checks_truthiness_only_witness :
  create_product (JObj []) listed =
    (Ret (Response invalid_request_body 400), listed) /\
  fst (create_product name_only listed) =
    Ret (Response (Json (product_dict
           (Product 6 (JStr "Widget") JNull JNull))) 201).
Proof.
  split.
  - apply (create_product_checks_truthiness_only listed (JObj [])).
    reflexivity.
  - apply (proj2 (create_product_checks_truthiness_only listed name_only)
             [("name", JStr "Widget")]).
    + reflexivity.
    + discriminate.
    + right. reflexivity.
Defined.

(** C3 as stated fails: a payload without [price] and [category] is answered
    201, the record is appended to [PRODUCTS] and the populated aggregate
    key is deleted. *)
Lemma missing_fields_are_accepted :
  cached_bytes "all_products" listed =
    Some (BytesJson (products_json SAMPLE_PRODUCTS)) /\
  fst (full_dispatch_request (POST_products name_only) listed) =
    Ret (Response (Json (product_dict
           (Product 6 (JStr "Widget") JNull JNull))) 201) /\
  length (PRODUCTS (snd (full_dispatch_request (POST_products name_only) listed)))
    = 6%nat /\
  cached_bytes "all_products"
    (snd (full_dispatch_request (POST_products name_only) listed)) = None.
Proof. vm_compute. repeat split; reflexivity. Qed.

(** C4, as amended.  When the backend was down at start-up ([redis_client]
    is [None]) no invalidation is attempted and the write returns the new
    record with status 201.  When the client exists and its [delete] raises,
    the exception is not caught: the record stays appended to [PRODUCTS],
    the cache is left as it was, and the request is answered 500. *)
Theorem create_product_when_invalidation_fails
    (w : world) (fields : list (string * json)) :
  fields <> [] ->
  (redis_client w = false ->
     create_product (JObj fields) w =
       (Ret (Response (Json (product_dict (committed fields w))) 201),
        set_log (log w ++ [LogCreated (committed fields w)])
          (set_PRODUCTS (PRODUCTS w ++ [committed fields w]) w)))
  /\
  (forall fs, redis_client w = true -> redis_faults w = true :: fs ->
     fst (create_product (JObj fields) w) = Raise RedisError /\
     PRODUCTS (snd (create_product (JObj fields) w)) =
       PRODUCTS w ++ [committed fields w] /\
     redis_db (snd (create_product (JObj fields) w)) = redis_db w /\
     fst (full_dispatch_request (POST_products (JObj fields)) w) =
       Ret (Response ErrorPage 500)).
Proof.
  intros Hne. split.
  - now apply create_product_no_client.
  - intros fs Hc Hf.
    rewrite (create_product_fault w fields fs) by assumption.
    repeat split.
    rewrite full_dispatch_request_eq.
    destruct (advance_clock_store w) as (_ & Hc' & _ & _ & Hf' & _).
    rewrite <- Hc' in Hc. rewrite <- Hf' in Hf.
    change (dispatch_request (POST_products (JObj fields)))
      with (create_product (JObj fields)).
    now rewrite (create_product_fault _ fields fs).
Qed.

Lemma create_product_when_invalidation_fails_witness :
  fst (create_product widget (startup false [])) =
    Ret (Response (Json (product_dict
           (Product 6 (JStr "Widget") (JFloat 999 (-2)) (JStr "Tools")))) 201) /\
  fst (create_product widget backend_down) = Raise RedisError.
Proof.
  unfold widget. split.
  - rewrite (proj1 (create_product_when_invalidation_fails (startup false [])
               [("name", JStr "Widget"); ("price", JFloat 999 (-2));
                ("category", JStr "Tools")] ltac:(discriminate)));
      reflexivity.
  - apply (proj2 (create_product_when_invalidation_fails backend_down
               [("name", JStr "Widget"); ("price", JFloat 999 (-2));
                ("category", JStr "Tools")] ltac:(discriminate)) []);
      reflexivity.
Defined.

(** C4 as stated fails: the commit succeeds, the invalidation raises, and the
    write is answered 500 instead of 201 although the record is in
    [PRODUCTS]. *)
Lemma failed_invalidation_fails_the_write :
  fst (create_product widget backend_down) = Raise RedisError /\
  fst (full_dispatch_request (POST_products widget) backend_down) =
    Ret (Response ErrorPage 500) /\
  PRODUCTS (snd (full_dispatch_request (POST_products widget) backend_down)) =
    SAMPLE_PRODUCTS ++
      [Product 6 (JStr "Widget") (JFloat 999 (-2)) (JStr "Tools")].
Proof. vm_compute. repeat split; reflexivity. Qed.

(** * The read paths *)

Lemma source_lookups_app product_id w l :
  source_lookups product_id (set_log (log w ++ l) w) =
    (source_lookups product_id w
     + length (List.filter (is_lookup_of product_id) l))%nat.
Proof.
  unfold source_lookups. py.
  now rewrite List.filter_app, length_app.
Qed.

Lemma live_value_fresh now b ttl :
  0 < ttl -> live_value now (Some (b, now + ttl)) = Some b.
Proof.
  intros H. cbn. destruct (Z.ltb_spec now (now + ttl)); [reflexivity | lia].
Qed.

(** C5.  A create answered 201 by an application whose client and backend
    work deletes the aggregate key, whatever it held; the listing read next
    is loaded from [PRODUCTS] and has the new record at its end, one more
    item than before. *)
Theorem create_then_list_shows_new_item
    (w w1 : world) (payload : json) (resp : response) :
  redis_client w = true -> redis_faults w = [] ->
  create_product payload w = (Ret resp, w1) -> status_code resp = 201 ->
  redis_db w1 !! "all_products" = None /\
  exists new_product,
    resp = Response (Json (product_dict new_product)) 201 /\
    PRODUCTS w1 = PRODUCTS w ++ [new_product] /\
    fst (get_products w1) =
      Ret (Response (Json (products_json (PRODUCTS w ++ [new_product]))) 200) /\
    length (PRODUCTS w ++ [new_product]) = S (length (PRODUCTS w)).
Proof.
  intros Hc Hf Hrun Hst.
  destruct (create_product_201 w payload resp w1 Hrun Hst) as (fields & -> & Hne).
  rewrite create_product_ok in Hrun by assumption.
  injection Hrun as <- <-. py. split; [apply lookup_delete_eq|].
  exists (committed fields w). repeat split.
  - set (w1 := set_log _ _).
    assert (Hg : get_cached_data "all_products" w1 = (Ret JNull, w1)).
    { rewrite get_cached_data_ok by assumption.
      unfold cached_bytes, w1. py. now rewrite lookup_delete_eq. }
    rewrite (get_products_miss w1 JNull w1 Hg eq_refl).
    now rewrite load_products_ok by assumption.
  - rewrite length_app. cbn. lia.
Qed.

Lemma create_then_list_shows_new_item_witness :
  redis_db (snd (create_product widget listed)) !! "all_products" = None.
Proof.
  apply (create_then_list_shows_new_item listed
           (snd (create_product widget listed)) widget
           (Response (Json (product_dict
              (Product 6 (JStr "Widget") (JFloat 999 (-2)) (JStr "Tools")))) 201));
    reflexivity.
Defined.

(** The listing of five items is cached, a sixth is written, and the next
    listing has six. *)
Example listing_of_five_then_six :
  cached_bytes "all_products" listed =
    Some (BytesJson (products_json SAMPLE_PRODUCTS)) /\
  fst (get_products listed) =
    Ret (Response (Json (products_json SAMPLE_PRODUCTS)) 200) /\
  fst (get_products (snd (create_product widget listed))) =
    Ret (Response (Json (products_json
           (SAMPLE_PRODUCTS ++
              [Product 6 (JStr "Widget") (JFloat 999 (-2)) (JStr "Tools")])))
         200).
Proof. vm_compute. repeat split; reflexivity. Qed.

(** What a successful read that went to the source leaves behind: the
    record under the item key, due to expire 3600 seconds later. *)
Lemma get_product_from_source (w w1 : world) product_id resp :
  redis_client w = true -> redis_faults w = [] ->
  get_product product_id w = (Ret resp, w1) ->
  status_code resp = 200 ->
  source_lookups product_id w1 = S (source_lookups product_id w) ->
  let product := next_product product_id (PRODUCTS w) in
  truthy product = true /\
  resp = Response (Json product) 200 /\
  redis_db w1 =
    <[product_key product_id := (BytesJson product, redis_now w + 3600)]>
      (redis_db w) /\
  redis_client w1 = true /\ redis_faults w1 = [] /\
  redis_now w1 = redis_now w /\ PRODUCTS w1 = PRODUCTS w.
Proof.
  intros Hc Hf Hrun Hst Hcount product.
  assert (Hload : forall w',
    redis_client w' = true -> redis_faults w' = [] ->
    redis_db w' = redis_db w -> redis_now w' = redis_now w ->
    PRODUCTS w' = PRODUCTS w ->
    (logger (LogRetrieving product_id) ;;;
     products <- gets PRODUCTS ;;
     let product := next_product product_id products in
     if truthy product then
       set_cached_data (product_key product_id) product 3600 ;;;
       ret (Response (jsonify product) 200)
     else
       logger (LogNotFound product_id) ;;;
       ret (Response not_found_body 404)) w' = (Ret resp, w1) ->
    truthy product = true /\
    resp = Response (Json product) 200 /\
    redis_db w1 =
      <[product_key product_id := (BytesJson product, redis_now w + 3600)]>
        (redis_db w) /\
    redis_client w1 = true /\ redis_faults w1 = [] /\
    redis_now w1 = redis_now w /\ PRODUCTS w1 = PRODUCTS w).
  { intros w' Hc' Hf' Hdb Hnow Hps Hrun'.
    destruct (truthy product) eqn:Ht.
    - rewrite load_product_ok in Hrun' by (rewrite ?Hps; assumption).
      injection Hrun' as <- <-. py.
      rewrite Hps, Hdb, Hnow. fold product. now repeat split.
    - rewrite load_product_absent in Hrun' by (rewrite Hps; assumption).
      injection Hrun' as <- _. discriminate. }
  destruct (get_cached_data_answers w (product_key product_id) (or_intror Hf))
    as [Hg | [(v & _ & _ & Hg) | (raw & _ & _ & Hg)]].
  - rewrite (get_product_miss w product_id JNull w Hg eq_refl) in Hrun.
    now apply (Hload w).
  - destruct (truthy v) eqn:Ht.
    + rewrite (get_product_hit w product_id v _ Hg Ht) in Hrun.
      injection Hrun as _ <-.
      rewrite source_lookups_app in Hcount. cbn in Hcount. lia.
    + rewrite (get_product_miss w product_id v _ Hg Ht) in Hrun.
      now apply (Hload (set_log (log w ++ [LogCacheHit (product_key product_id)]) w)).
  - rewrite (get_product_raise w product_id _ _ Hg) in Hrun. discriminate.
Qed.

(** C10, as amended.  A cached JSON text whose value is falsy is logged as a
    cache hit by [get_cached_data] but treated as a miss by the view: the
    source is consulted.  The listing is then stored again under the
    aggregate key.  An item is stored again when the source has it; when the
    source does not, the read is answered 404 and the backend is left as it
    was, the falsy value still in place. *)
Theorem falsy_cached_value_is_a_miss (w : world) (v : json) :
  redis_client w = true -> redis_faults w = [] -> truthy v = false ->
  (cached_bytes "all_products" w = Some (BytesJson v) ->
   exists w',
     get_products w =
       (Ret (Response (Json (products_json (PRODUCTS w))) 200), w') /\
     log w' = log w ++ [LogCacheHit "all_products"; LogRetrievingAll;
                        LogCacheSet "all_products"] /\
     cached_bytes "all_products" w' =
       Some (BytesJson (products_json (PRODUCTS w))))
  /\
  (forall product_id,
   cached_bytes (product_key product_id) w = Some (BytesJson v) ->
   let product := next_product product_id (PRODUCTS w) in
   exists resp w',
     get_product product_id w = (Ret resp, w') /\
     source_lookups product_id w' = S (source_lookups product_id w) /\
     (truthy product = true ->
        resp = Response (Json product) 200 /\
        cached_bytes (product_key product_id) w' = Some (BytesJson product)) /\
     (truthy product = false ->
        resp = Response not_found_body 404 /\ redis_db w' = redis_db w)).
Proof.
  intros Hc Hf Hv. split.
  - intros Hcached.
    assert (Hg : get_cached_data "all_products" w =
                 (Ret v, set_log (log w ++ [LogCacheHit "all_products"]) w)).
    { rewrite get_cached_data_ok by assumption. now rewrite Hcached. }
    rewrite (get_products_miss w v _ Hg Hv).
    rewrite load_products_ok by assumption.
    eexists. split; [reflexivity|]. py. split.
    + now rewrite <- app_assoc.
    + unfold cached_bytes. py. rewrite lookup_insert_eq.
      now apply live_value_fresh.
  - intros product_id Hcached product.
    assert (Hg : get_cached_data (product_key product_id) w =
                 (Ret v, set_log (log w ++ [LogCacheHit (product_key product_id)]) w)).
    { rewrite get_cached_data_ok by assumption. now rewrite Hcached. }
    rewrite (get_product_miss w product_id v _ Hg Hv).
    destruct (truthy product) eqn:Ht.
    + rewrite load_product_ok by assumption.
      do 2 eexists. split; [reflexivity|]. split; [|split].
      * unfold source_lookups. py.
        rewrite !List.filter_app, !length_app. cbn.
        rewrite Z.eqb_refl. cbn. lia.
      * intros _. split; [reflexivity|].
        unfold cached_bytes. py. rewrite lookup_insert_eq.
        now apply live_value_fresh.
      * discriminate.
    + rewrite load_product_absent by assumption.
      do 2 eexists. split; [reflexivity|]. split; [|split].
      * unfold source_lookups. py.
        rewrite !List.filter_app, !length_app. cbn.
        rewrite Z.eqb_refl. cbn. lia.
      * discriminate.
      * intros _. now split.
Qed.

Lemma falsy_cached_value_is_a_miss_witness :
  exists resp w',
    get_product 99 null_cached = (Ret resp, w') /\
    source_lookups 99 w' = 1%nat.
Proof.
  destruct (proj2 (falsy_cached_value_is_a_miss null_cached JNull
                     eq_refl eq_refl eq_refl) 99 eq_refl)
    as (resp & w' & Hrun & Hcount & _).
  exists resp, w'. split; [exact Hrun | exact Hcount].
Defined.

(** C10 as stated fails: the JSON text [null] cached under the key of item
    99, which the source does not have, makes the read consult the source,
    but the cache is not repopulated: the answer is 404 and the key still
    holds [null]. *)
Lemma falsy_cached_value_not_repopulated :
  cached_bytes (product_key 99) null_cached = Some (BytesJson JNull) /\
  fst (get_product 99 null_cached) = Ret (Response not_found_body 404) /\
  log (snd (get_product 99 null_cached)) =
    [LogCacheHit "product_99"; LogRetrieving 99; LogNotFound 99] /\
  cached_bytes (product_key 99) (snd (get_product 99 null_cached)) =
    Some (BytesJson JNull).
Proof. vm_compute. repeat split; reflexivity. Qed.

(** * Coherence of the cache *)

Lemma product_key_not_listing product_id :
  product_key product_id <> "all_products".
Proof. unfold product_key. cbn. discriminate. Qed.

Lemma product_key_inj i j : product_key i = product_key j -> i = j.
Proof.
  unfold product_key. intros H.
  apply (inj (String.app "product_")) in H.
  now apply (inj pretty) in H.
Qed.

Lemma next_product_truthy product_id ps :
  truthy (next_product product_id ps) = true <->
  exists p, List.find (fun p => p_id p =? product_id) ps = Some p.
Proof.
  unfold next_product.
  destruct (List.find _ ps) as [p|]; cbn.
  - split; eauto.
  - split; [discriminate | intros [p Hp]; discriminate].
Qed.

Lemma next_product_app product_id ps p :
  truthy (next_product product_id ps) = true ->
  next_product product_id (ps ++ [p]) = next_product product_id ps.
Proof.
  intros H. apply next_product_truthy in H as [q Hq].
  unfold next_product.
  induction ps as [|a ps IH]; [discriminate|].
  cbn in *. destruct (p_id a =? product_id); [reflexivity | now apply IH].
Qed.

Lemma cached_bytes_entry key w b :
  cached_bytes key w = Some b ->
  exists deadline, redis_db w !! key = Some (b, deadline).
Proof.
  unfold cached_bytes, live_value.
  destruct (redis_db w !! key) as [[b' d]|]; [|discriminate].
  destruct (redis_now w <? d); [|discriminate].
  intros [= ->]. eauto.
Qed.

Lemma sound_startup ping_ok ticks : sound (startup ping_ok ticks).
Proof.
  split; [reflexivity|]. split.
  - intros key b d H. cbn in H. now rewrite lookup_empty in H.
  - reflexivity.
Qed.

(** Soundness looks only at the list, the client, the backend's content
    and its faults. *)
Lemma sound_ext w w' :
  PRODUCTS w' = PRODUCTS w -> redis_client w' = redis_client w ->
  redis_db w' = redis_db w -> redis_faults w' = redis_faults w ->
  sound w -> sound w'.
Proof.
  intros Hp Hc Hd Hf (Hf0 & Hcoh & Hnc). unfold sound, coherent.
  rewrite Hp, Hc, Hd, Hf. auto.
Qed.

Lemma sound_set key data deadline w :
  sound w -> redis_client w = true ->
  (key = "all_products" /\ data = products_json (PRODUCTS w)) \/
  (exists product_id,
      key = product_key product_id /\
      data = next_product product_id (PRODUCTS w) /\
      truthy (next_product product_id (PRODUCTS w)) = true) ->
  forall w',
    PRODUCTS w' = PRODUCTS w -> redis_client w' = redis_client w ->
    redis_db w' = <[key := (BytesJson data, deadline)]> (redis_db w) ->
    redis_faults w' = redis_faults w ->
    sound w'.
Proof.
  intros (Hf0 & Hcoh & Hnc) Hc Hdata w' Hp Hc' Hd Hf.
  unfold sound, coherent. rewrite Hp, Hc', Hd, Hf.
  split; [assumption|]. split; [|congruence].
  intros k b d. rewrite lookup_insert. case_decide as Hk.
  - subst k. intros [= <- <-].
    destruct Hdata as [[-> ->] | (i & -> & -> & Ht)]; eauto 6.
  - apply Hcoh.
Qed.

Section ViewsKeepCoherence.
Variable w : world.
Hypothesis Hsound : sound w.

Lemma cached_listing_is_current v :
  cached_bytes "all_products" w = Some (BytesJson v) ->
  v = products_json (PRODUCTS w).
Proof.
  intros H. apply cached_bytes_entry in H as [d Hd].
  destruct Hsound as (_ & Hcoh & _).
  destruct (Hcoh _ _ _ Hd) as [[_ [= ->]] | (i & Hk & _)]; [reflexivity|].
  symmetry in Hk. now apply product_key_not_listing in Hk.
Qed.

Lemma cached_product_is_current product_id v :
  cached_bytes (product_key product_id) w = Some (BytesJson v) ->
  v = next_product product_id (PRODUCTS w) /\ truthy v = true.
Proof.
  intros H. apply cached_bytes_entry in H as [d Hd].
  destruct Hsound as (_ & Hcoh & _).
  destruct (Hcoh _ _ _ Hd) as [[Hk _] | (i & Hk & [= ->] & Ht)].
  - now apply product_key_not_listing in Hk.
  - apply product_key_inj in Hk. subst i. now split.
Qed.

Lemma cached_bytes_never_corrupt key raw :
  cached_bytes key w <> Some (BytesOther raw).
Proof.
  intros H. apply cached_bytes_entry in H as [d Hd].
  destruct Hsound as (_ & Hcoh & _).
  destruct (Hcoh _ _ _ Hd) as [[_ ?] | (i & _ & ? & _)]; discriminate.
Qed.

Lemma get_products_sound :
  sound (snd (get_products w)) /\
  PRODUCTS (snd (get_products w)) = PRODUCTS w /\
  redis_client (snd (get_products w)) = redis_client w /\
  fst (get_products w) =
    Ret (Response (Json (products_json (PRODUCTS w))) 200).
Proof.
  pose proof Hsound as (Hf & _ & _).
  assert (Hload : forall v l,
    truthy v = false ->
    get_cached_data "all_products" w = (Ret v, set_log l w) ->
    sound (snd (get_products w)) /\
    PRODUCTS (snd (get_products w)) = PRODUCTS w /\
    redis_client (snd (get_products w)) = redis_client w /\
    fst (get_products w) =
      Ret (Response (Json (products_json (PRODUCTS w))) 200)).
  { intros v l Hv Hg. rewrite (get_products_miss w v _ Hg Hv).
    destruct (redis_client w) eqn:Hc.
    - rewrite load_products_ok by assumption. py.
      split; [|repeat split; assumption].
      eapply (sound_set "all_products"); eauto; reflexivity.
    - rewrite load_products_no_client by assumption. py.
      split; [|repeat split; assumption].
      now apply (sound_ext w). }
  destruct (get_cached_data_answers w "all_products" (or_intror Hf))
    as [Hg | [(v & Hc & Hcb & Hg) | (raw & _ & Hcb & _)]].
  - apply (Hload JNull (log w)); [reflexivity|].
    rewrite Hg. now destruct w.
  - pose proof (cached_listing_is_current v Hcb) as ->.
    destruct (truthy (products_json (PRODUCTS w))) eqn:Ht.
    + rewrite (get_products_hit w _ _ Hg Ht). py.
      split; [|repeat split; assumption]. now apply (sound_ext w).
    + now apply (Hload _ _ Ht Hg).
  - now apply cached_bytes_never_corrupt in Hcb.
Qed.

Lemma get_product_sound product_id :
  sound (snd (get_product product_id w)) /\
  PRODUCTS (snd (get_product product_id w)) = PRODUCTS w /\
  redis_client (snd (get_product product_id w)) = redis_client w /\
  fst (get_product product_id w) =
    Ret (source_product product_id (PRODUCTS w)) /\
  (truthy (next_product product_id (PRODUCTS w)) = false ->
   redis_db (snd (get_product product_id w)) = redis_db w).
Proof.
  pose proof Hsound as (Hf & _ & _).
  assert (Hload : forall v l,
    truthy v = false ->
    get_cached_data (product_key product_id) w = (Ret v, set_log l w) ->
    sound (snd (get_product product_id w)) /\
    PRODUCTS (snd (get_product product_id w)) = PRODUCTS w /\
    redis_client (snd (get_product product_id w)) = redis_client w /\
    fst (get_product product_id w) =
      Ret (source_product product_id (PRODUCTS w)) /\
    (truthy (next_product product_id (PRODUCTS w)) = false ->
     redis_db (snd (get_product product_id w)) = redis_db w)).
  { intros v l Hv Hg. rewrite (get_product_miss w product_id v _ Hg Hv).
    unfold source_product.
    destruct (truthy (next_product product_id (PRODUCTS w))) eqn:Ht.
    - destruct (redis_client w) eqn:Hc.
      + rewrite load_product_ok by assumption. py.
        split; [|repeat split; try assumption; discriminate].
        eapply (sound_set (product_key product_id)); eauto 6; reflexivity.
      + rewrite load_product_no_client by assumption. py.
        split; [|repeat split; try assumption; discriminate].
        now apply (sound_ext w).
    - rewrite load_product_absent by assumption. py.
      split; [|repeat split; assumption].
      now apply (sound_ext w). }
  destruct (get_cached_data_answers w (product_key product_id) (or_intror Hf))
    as [Hg | [(v & Hc & Hcb & Hg) | (raw & _ & Hcb & _)]].
  - apply (Hload JNull (log w)); [reflexivity|].
    rewrite Hg. now destruct w.
  - destruct (cached_product_is_current product_id v Hcb) as [-> Ht].
    rewrite (get_product_hit w product_id _ _ Hg Ht). py.
    unfold source_product. rewrite Ht.
    split; [|repeat split; try assumption; congruence].
    now apply (sound_ext w).
  - now apply cached_bytes_never_corrupt in Hcb.
Qed.
End ViewsKeepCoherence.

Lemma create_product_sound w payload :
  sound w ->
  sound (snd (create_product payload w)) /\
  redis_client (snd (create_product payload w)) = redis_client w /\
  (fst (create_product payload w), PRODUCTS (snd (create_product payload w)))
    = source_create payload (PRODUCTS w).
Proof.
  intros Hsound. pose proof Hsound as (Hf & Hcoh & Hnc).
  unfold source_create.
  destruct (truthy payload) eqn:Ht; cbn [negb].
  - destruct payload as [| | | | | |fields];
      try (unfold create_product, json_get; rewrite Ht; now py).
    assert (Hne : fields <> []) by now destruct fields.
    destruct (redis_client w) eqn:Hc.
    + rewrite create_product_ok by assumption. py.
      split; [|now split].
      split; [assumption|]. split; [|py; congruence].
      intros key b d. py. rewrite lookup_delete. case_decide as Hk; [discriminate|].
      intros Hd. destruct (Hcoh _ _ _ Hd) as [[-> _] | (i & -> & -> & Hi)];
        [congruence|].
      right. exists i. rewrite next_product_app by assumption. now repeat split.
    + rewrite create_product_no_client by assumption. py.
      split; [|now split].
      split; [assumption|]. split; [|now intros _; apply Hnc].
      intros key b d. py. rewrite (Hnc eq_refl), lookup_empty. discriminate.
  - rewrite create_product_rejected by assumption. now repeat split.
Qed.

Lemma health_check_store w :
  PRODUCTS (snd (health_check w)) = PRODUCTS w /\
  redis_client (snd (health_check w)) = redis_client w /\
  redis_db (snd (health_check w)) = redis_db w /\
  redis_faults (snd (health_check w)) = redis_faults w.
Proof.
  unfold health_check. py. rewrite time_time_eq. py.
  pose proof (advance_clock_store w). tauto.
Qed.

Lemma dispatch_request_sound req w :
  sound w ->
  sound (snd (dispatch_request req w)) /\
  redis_client (snd (dispatch_request req w)) = redis_client w /\
  PRODUCTS (snd (dispatch_request req w)) = source_after req (PRODUCTS w).
Proof.
  intros Hsound. unfold dispatch_request, source_after.
  destruct (match_url (path req)) as [[rule product_id]|];
    [|destruct (method req); (split; [exact Hsound | now split])].
  destruct (method req), rule;
    try (split; [exact Hsound | now split]);
    try (pose proof (get_products_sound w Hsound); tauto);
    try (pose proof (get_product_sound w Hsound product_id); tauto);
    try (destruct (health_check_store w) as (Hp & Hc & Hd & Hf);
         split; [now apply (sound_ext w) | now split]).
  pose proof (create_product_sound w (request_json req) Hsound)
    as (Hs & Hc & Hpair).
  split; [assumption|]. split; [assumption|]. now rewrite <- Hpair.
Qed.

Lemma full_dispatch_request_answer req w :
  fst (full_dispatch_request req w) =
    Ret (answer (fst (dispatch_request req (advance_clock w)))).
Proof.
  rewrite full_dispatch_request_eq.
  now destruct (dispatch_request req (advance_clock w)).
Qed.

Lemma advance_clock_sound w : sound w -> sound (advance_clock w).
Proof.
  destruct (advance_clock_store w) as (Hp & Hc & Hd & _ & Hf & _).
  now apply sound_ext.
Qed.

Lemma full_dispatch_request_sound req w :
  sound w ->
  sound (snd (full_dispatch_request req w)) /\
  redis_client (snd (full_dispatch_request req w)) = redis_client w /\
  PRODUCTS (snd (full_dispatch_request req w)) = source_after req (PRODUCTS w).
Proof.
  intros Hsound. apply advance_clock_sound in Hsound.
  destruct (dispatch_request_sound req _ Hsound) as (Hs & Hc & Hp).
  destruct (advance_clock_store w) as (Hp0 & Hc0 & _).
  rewrite Hc0 in Hc. rewrite Hp0 in Hp.
  rewrite full_dispatch_request_eq.
  destruct (dispatch_request req (advance_clock w)) as [o w1].
  cbn [snd] in *.
  destruct (advance_clock_store w1) as (Hp1 & Hc1 & Hd1 & _ & Hf1 & _).
  split; [|split].
  - apply (sound_ext w1); [| | | |exact Hs]; unfold recorded; py; assumption.
  - unfold recorded. py. congruence.
  - unfold recorded. py. congruence.
Qed.

Lemma step_sound e w :
  sound w ->
  sound (step w e) /\
  redis_client (step w e) = redis_client w /\
  PRODUCTS (step w e) =
    match e with
    | Serve req => source_after req (PRODUCTS w)
    | _ => PRODUCTS w
    end.
Proof.
  intros Hsound. destruct e as [req|seconds|key]; cbn [step].
  - now apply full_dispatch_request_sound.
  - split; [|now split]. now apply (sound_ext w).
  - split; [|now split].
    destruct Hsound as (Hf & Hcoh & Hnc). split; [assumption|]. split.
    + intros k b d. py. rewrite lookup_delete.
      case_decide; [discriminate | apply Hcoh].
    + py. intros Hc. rewrite (Hnc Hc). apply delete_empty.
Qed.

Lemma run_sound history : forall w, sound w -> sound (run history w).
Proof.
  induction history as [|e history IH]; intros w Hsound; [assumption|].
  apply IH. now apply step_sound.
Qed.



(** * The cache does not change what is read *)



(** * What the views leave alone *)

Section Frame.
Variable R : world -> world -> Prop.
Hypothesis R_refl : forall w, R w w.
Hypothesis R_trans : forall a b c, R a b -> R b c -> R a c.
Hypothesis R_PRODUCTS : forall ps w, R w (set_PRODUCTS ps w).
Hypothesis R_db : forall db w, R w (set_redis_db db w).
Hypothesis R_faults : forall fs w, R w (set_redis_faults fs w).
Hypothesis R_log : forall l w, R w (set_log l w).
Hypothesis R_clock : forall w, R w (advance_clock w).

Lemma keeps_ret {A} (a : A) : keeps R (ret a).
Proof. intros w. apply R_refl. Qed.

Lemma keeps_raise {A} e : keeps R (raise (A:=A) e).
Proof. intros w. apply R_refl. Qed.

Lemma keeps_gets {A} (f : world -> A) : keeps R (gets f).
Proof. intros w. apply R_refl. Qed.

Lemma keeps_bind {A B} (m : M A) (k : A -> M B) :
  keeps R m -> (forall a, keeps R (k a)) -> keeps R (bind m k).
Proof.
  intros Hm Hk w. unfold bind. specialize (Hm w).
  destruct (m w) as [[a|e] w']; cbn [snd] in *; [|assumption].
  eapply R_trans; [exact Hm | apply Hk].
Qed.

Lemma keeps_logger r : keeps R (logger r).
Proof. intros w. apply R_log. Qed.

Lemma keeps_time_time : keeps R time_time.
Proof. intros w. rewrite time_time_eq. apply R_clock. Qed.

Lemma keeps_redis_call : keeps R redis_call.
Proof.
  intros w. unfold redis_call.
  destruct (redis_faults w) as [|[] fs]; cbn [snd];
    [apply R_refl | apply R_faults | apply R_faults].
Qed.

Lemma keeps_redis_get key : keeps R (redis_get key).
Proof.
  apply keeps_bind; [apply keeps_redis_call | intros _; apply keeps_gets].
Qed.

Lemma keeps_redis_setex key expires value :
  keeps R (redis_setex key expires value).
Proof.
  apply keeps_bind; [apply keeps_redis_call | intros _ w; apply R_db].
Qed.

Lemma keeps_redis_delete key : keeps R (redis_delete key).
Proof.
  apply keeps_bind; [apply keeps_redis_call | intros _ w; apply R_db].
Qed.

Lemma keeps_json_loads b : keeps R (json_loads b).
Proof. destruct b; [apply keeps_raise | apply keeps_ret | apply keeps_raise]. Qed.

Lemma keeps_get_cached_data key : keeps R (get_cached_data key).
Proof.
  unfold get_cached_data.
  apply keeps_bind; [apply keeps_gets | intros []]; [|apply keeps_ret].
  apply keeps_bind; [apply keeps_redis_get | intros [b|]]; [|apply keeps_ret].
  destruct (bytes_truthy b); [|apply keeps_ret].
  apply keeps_bind; [apply keeps_logger | intros _; apply keeps_json_loads].
Qed.

Lemma keeps_set_cached_data key data expires :
  keeps R (set_cached_data key data expires).
Proof.
  unfold set_cached_data.
  apply keeps_bind; [apply keeps_gets | intros []]; [|apply keeps_ret].
  apply keeps_bind; [apply keeps_redis_setex | intros _; apply keeps_logger].
Qed.

Lemma keeps_get_products : keeps R get_products.
Proof.
  unfold get_products.
  apply keeps_bind; [apply keeps_get_cached_data | intros v].
  destruct (truthy v); [apply keeps_ret|].
  apply keeps_bind; [apply keeps_logger | intros _].
  apply keeps_bind; [apply keeps_gets | intros ps].
  apply keeps_bind; [apply keeps_set_cached_data | intros _].
  apply keeps_bind; [apply keeps_gets | intros ps'; apply keeps_ret].
Qed.

Lemma keeps_get_product product_id : keeps R (get_product product_id).
Proof.
  unfold get_product.
  apply keeps_bind; [apply keeps_get_cached_data | intros v].
  destruct (truthy v); [apply keeps_ret|].
  apply keeps_bind; [apply keeps_logger | intros _].
  apply keeps_bind; [apply keeps_gets | intros ps]. cbv zeta.
  destruct (truthy (next_product product_id ps)).
  - apply keeps_bind; [apply keeps_set_cached_data | intros _; apply keeps_ret].
  - apply keeps_bind; [apply keeps_logger | intros _; apply keeps_ret].
Qed.

Lemma keeps_json_get payload k : keeps R (json_get payload k).
Proof. destruct payload; try apply keeps_raise. apply keeps_ret. Qed.

Lemma keeps_create_product payload : keeps R (create_product payload).
Proof.
  unfold create_product.
  destruct (negb (truthy payload)); [apply keeps_ret|].
  apply keeps_bind; [apply keeps_gets | intros ps]. cbv zeta.
  apply keeps_bind; [apply keeps_json_get | intros name].
  apply keeps_bind; [apply keeps_json_get | intros price].
  apply keeps_bind; [apply keeps_json_get | intros category].
  apply keeps_bind; [intros w; apply R_PRODUCTS | intros _].
  apply keeps_bind; [apply keeps_logger | intros _].
  apply keeps_bind; [apply keeps_gets | intros client].
  apply keeps_bind; [|intros _; apply keeps_ret].
  destruct client; [|apply keeps_ret].
  apply keeps_bind; [apply keeps_redis_delete | intros _; apply keeps_logger].
Qed.

Lemma keeps_metrics : keeps R metrics.
Proof.
  unfold metrics.
  apply keeps_bind; [apply keeps_gets | intros counts].
  apply keeps_bind; [apply keeps_gets | intros latencies; apply keeps_ret].
Qed.

Lemma keeps_health_check : keeps R health_check.
Proof.
  unfold health_check.
  apply keeps_bind; [apply keeps_time_time | intros timestamp].
  apply keeps_bind; [apply keeps_gets | intros client; apply keeps_ret].
Qed.

Lemma keeps_dispatch_request req : keeps R (dispatch_request req).
Proof.
  unfold dispatch_request.
  destruct (match_url (path req)) as [[rule product_id]|]; [|apply keeps_ret].
  destruct (method req), rule;
    first [ apply keeps_ret | apply keeps_metrics | apply keeps_health_check
          | apply keeps_get_products | apply keeps_get_product
          | apply keeps_create_product ].
Qed.
End Frame.

Lemma view_frame_refl w : view_frame w w.
Proof. split; [now split|]. intros H. split; [assumption | lia]. Qed.

Lemma view_frame_fields w w' :
  REQUEST_COUNT w' = REQUEST_COUNT w ->
  REQUEST_LATENCY w' = REQUEST_LATENCY w ->
  clock w' = clock w -> clock_last w' = clock_last w ->
  view_frame w w'.
Proof.
  intros Hc Hl Hk Hkl. split; [now split|].
  unfold clock_forward. rewrite Hk, Hkl. intros H. split; [assumption | lia].
Qed.

Lemma view_frame_trans a b c : view_frame a b -> view_frame b c -> view_frame a c.
Proof.
  intros [[Hc1 Hl1] Hf1] [[Hc2 Hl2] Hf2]. split; [split; congruence|].
  intros H. destruct (Hf1 H) as [H1 Hle1]. destruct (Hf2 H1) as [H2 Hle2].
  split; [assumption | lia].
Qed.

Lemma view_frame_advance_clock w : view_frame w (advance_clock w).
Proof.
  unfold advance_clock. destruct (clock w) as [|t ts] eqn:Hclock.
  - apply view_frame_refl.
  - split; [now split|]. intros H. rewrite Hclock in H. py.
    cbn in H. tauto.
Qed.

Lemma dispatch_request_frame req w :
  view_frame w (snd (dispatch_request req w)).
Proof.
  apply (keeps_dispatch_request view_frame).
  - apply view_frame_refl.
  - apply view_frame_trans.
  - intros; now apply view_frame_fields.
  - intros; now apply view_frame_fields.
  - intros; now apply view_frame_fields.
  - intros; now apply view_frame_fields.
  - apply view_frame_advance_clock.
Qed.

Lemma next_reading_forward w :
  nondecreasing (clock_last w) (clock w) ->
  clock_last w <= next_reading w /\
  next_reading w = clock_last (advance_clock w).
Proof.
  unfold next_reading, advance_clock.
  destruct (clock w) as [|t ts]; cbn; intros H; [lia | tauto].
Qed.

(** What one request does to the registry and the clock. *)
Lemma serve_registry req w :
  exists resp latency,
    fst (full_dispatch_request req w) = Ret resp /\
    REQUEST_COUNT (snd (full_dispatch_request req w)) =
      <[(app_name, method_name (method req), path req, status_code resp) :=
          S (default 0%nat
               (REQUEST_COUNT w !!
                  (app_name, method_name (method req), path req,
                   status_code resp)))]> (REQUEST_COUNT w) /\
    REQUEST_LATENCY (snd (full_dispatch_request req w)) =
      <[(app_name, method_name (method req), path req) :=
          default [] (REQUEST_LATENCY w !!
                        (app_name, method_name (method req), path req))
          ++ [latency]]> (REQUEST_LATENCY w) /\
    clock_forward w (snd (full_dispatch_request req w)) /\
    (nondecreasing (clock_last w) (clock w) -> 0 <= latency).
Proof.
  rewrite full_dispatch_request_eq.
  pose proof (dispatch_request_frame req (advance_clock w)) as Hframe.
  destruct (dispatch_request req (advance_clock w)) as [o w1].
  cbn [snd] in Hframe.
  pose proof (view_frame_trans _ _ _ (view_frame_advance_clock w) Hframe)
    as [[Hcount Hlat] Hfwd].
  destruct Hframe as [_ Hfwd1].
  exists (answer o), (next_reading w1 - next_reading w).
  unfold recorded. py.
  destruct (view_frame_advance_clock w1) as [[Hc1 Hl1] Hf1].
  rewrite Hc1, Hl1, Hcount, Hlat.
  split; [reflexivity|]. split; [reflexivity|]. split; [reflexivity|]. split.
  - unfold clock_forward. py.
    intros H. destruct (Hfwd H) as [H1 Hle]. destruct (Hf1 H1) as [H2 Hle2].
    split; [assumption | lia].
  - intros H. destruct (next_reading_forward w H) as [_ Heq].
    destruct (view_frame_advance_clock w) as [_ Hf0].
    destruct (Hf0 H) as [H0 _]. destruct (Hfwd1 H0) as [H1 Hle].
    destruct (next_reading_forward w1 H1) as [Hle1 _]. lia.
Qed.

(** * Reading an id the source does not have *)




(** * Reading an item twice *)

Lemma create_product_not_dict w payload :
  truthy payload = true -> (forall fields, payload <> JObj fields) ->
  create_product payload w = (Raise AttributeError, w).
Proof.
  intros Ht Hnd. unfold create_product, json_get. rewrite Ht.
  destruct payload; try reflexivity. now destruct (Hnd fields).
Qed.

Section CachedItem.
Variables (product_id : Z) (product : json) (deadline : Z) (lookups : nat).

(** [caching] is kept by anything that leaves the client, the faults and
    the item's entry alone and logs no search for the id. *)
Lemma caching_frame w w' l :
  caching product_id product deadline lookups w ->
  redis_client w' = redis_client w -> redis_faults w' = redis_faults w ->
  redis_db w' !! product_key product_id = redis_db w !! product_key product_id ->
  log w' = log w ++ l ->
  forallb (fun r => negb (is_lookup_of product_id r)) l = true ->
  caching product_id product deadline lookups w'.
Proof.
  intros (H1 & H2 & H3 & H4 & H5) Hc Hf Hd Hl Hquiet.
  unfold caching. rewrite Hc, Hf, Hd. repeat split; try assumption.
  unfold source_lookups in *. rewrite Hl, List.filter_app, length_app, H5.
  assert (List.filter (is_lookup_of product_id) l = []) as ->; [|cbn; lia].
  clear -Hquiet. induction l as [|r l IH]; [reflexivity|].
  cbn in *. apply andb_true_iff in Hquiet as [Hr Hrest].
  destruct (is_lookup_of product_id r); [discriminate | now apply IH].
Qed.

Lemma caching_same w w' :
  caching product_id product deadline lookups w ->
  redis_client w' = redis_client w -> redis_faults w' = redis_faults w ->
  redis_db w' = redis_db w -> log w' = log w ->
  caching product_id product deadline lookups w'.
Proof.
  intros H Hc Hf Hd Hl.
  apply (caching_frame w w' []); auto; [now rewrite Hd | now rewrite Hl, app_nil_r].
Qed.

Lemma caching_hit w :
  caching product_id product deadline lookups w -> redis_now w < deadline ->
  get_cached_data (product_key product_id) w =
    (Ret product, set_log (log w ++ [LogCacheHit (product_key product_id)]) w).
Proof.
  intros (Hc & Hf & Hd & _ & _) Hlive.
  rewrite get_cached_data_ok by assumption.
  unfold cached_bytes. rewrite Hd. cbn.
  destruct (Z.ltb_spec (redis_now w) deadline); [reflexivity | lia].
Qed.

Lemma caching_get_products w :
  caching product_id product deadline lookups w ->
  caching product_id product deadline lookups (snd (get_products w)) /\
  redis_now (snd (get_products w)) = redis_now w.
Proof.
  intros Hcaching. pose proof Hcaching as (Hc & Hf & _).
  assert (Hother :
    forall (x : bytes * Z) (db : gmap string (bytes * Z)),
      <["all_products" := x]> db !! product_key product_id =
      db !! product_key product_id).
  { intros. apply lookup_insert_ne. intros Heq. symmetry in Heq.
    now apply product_key_not_listing in Heq. }
  destruct (get_cached_data_answers w "all_products" (or_intror Hf))
    as [Hg | [(v & _ & _ & Hg) | (raw & _ & _ & Hg)]].
  - rewrite (get_products_miss w JNull w Hg eq_refl).
    rewrite load_products_ok by assumption. py. split; [|reflexivity].
    now eapply (caching_frame w); py; auto.
  - destruct (truthy v) eqn:Hv.
    + rewrite (get_products_hit w v _ Hg Hv). py. split; [|reflexivity].
      now eapply (caching_frame w); py; auto.
    + rewrite (get_products_miss w v _ Hg Hv).
      rewrite load_products_ok by assumption. py. split; [|reflexivity].
      eapply (caching_frame w); py; auto.
      * now rewrite <- app_assoc.
      * reflexivity.
  - rewrite (get_products_raise w _ _ Hg). py. split; [|reflexivity].
    now eapply (caching_frame w); py; auto.
Qed.

Lemma caching_get_product w j :
  caching product_id product deadline lookups w -> redis_now w < deadline ->
  caching product_id product deadline lookups (snd (get_product j w)) /\
  redis_now (snd (get_product j w)) = redis_now w.
Proof.
  intros Hcaching Hlive. pose proof Hcaching as (Hc & Hf & _ & Ht & _).
  destruct (Z.eq_dec j product_id) as [->|Hne].
  { rewrite (get_product_hit w product_id product _
               (caching_hit w Hcaching Hlive) Ht).
    py. split; [|reflexivity].
    now eapply (caching_frame w); py; auto. }
  assert (Hother :
    forall (x : bytes * Z) (db : gmap string (bytes * Z)),
      <[product_key j := x]> db !! product_key product_id =
      db !! product_key product_id).
  { intros. apply lookup_insert_ne. intros Heq.
    now apply product_key_inj in Heq. }
  assert (Hj : (j =? product_id) = false) by now apply Z.eqb_neq.
  assert (Hload : forall l w',
    w' = set_log (log w ++ l) w ->
    forallb (fun r => negb (is_lookup_of product_id r)) l = true ->
    let out :=
      (logger (LogRetrieving j) ;;;
       products <- gets PRODUCTS ;;
       let product := next_product j products in
       if truthy product then
         set_cached_data (product_key j) product 3600 ;;;
         ret (Response (jsonify product) 200)
       else
         logger (LogNotFound j) ;;;
         ret (Response not_found_body 404)) w' in
    caching product_id product deadline lookups (snd out) /\
    redis_now (snd out) = redis_now w).
  { intros l w' -> Hquiet out. subst out.
    destruct (truthy (next_product j (PRODUCTS w))) eqn:Hfound.
    - rewrite load_product_ok by assumption. py. split; [|reflexivity].
      eapply (caching_frame w); py; auto.
      + now rewrite <- app_assoc.
      + rewrite forallb_app, Hquiet. cbn. now rewrite Hj.
    - rewrite load_product_absent by assumption. py. split; [|reflexivity].
      eapply (caching_frame w); py; auto.
      + now rewrite <- app_assoc.
      + rewrite forallb_app, Hquiet. cbn. now rewrite Hj. }
  destruct (get_cached_data_answers w (product_key j) (or_intror Hf))
    as [Hg | [(v & _ & _ & Hg) | (raw & _ & _ & Hg)]].
  - rewrite (get_product_miss w j JNull w Hg eq_refl).
    apply (Hload []); [|reflexivity]. rewrite app_nil_r. now destruct w.
  - destruct (truthy v) eqn:Hv.
    + rewrite (get_product_hit w j v _ Hg Hv). py. split; [|reflexivity].
      now eapply (caching_frame w); py; auto.
    + rewrite (get_product_miss w j v _ Hg Hv).
      now apply (Hload [LogCacheHit (product_key j)]).
  - rewrite (get_product_raise w j _ _ Hg). py. split; [|reflexivity].
    now eapply (caching_frame w); py; auto.
Qed.

Lemma caching_create_product w payload :
  caching product_id product deadline lookups w ->
  caching product_id product deadline lookups (snd (create_product payload w)) /\
  redis_now (snd (create_product payload w)) = redis_now w.
Proof.
  intros Hcaching. pose proof Hcaching as (Hc & Hf & _).
  destruct (truthy payload) eqn:Ht.
  - destruct payload as [| | | | | |fields];
      try (rewrite create_product_not_dict by (assumption || discriminate);
           now split).
    assert (Hne : fields <> []) by now destruct fields.
    rewrite create_product_ok by assumption. py. split; [|reflexivity].
    eapply (caching_frame w); py; auto.
    apply lookup_delete_ne. intros Heq. symmetry in Heq.
    now apply product_key_not_listing in Heq.
  - rewrite create_product_rejected by assumption. now split.
Qed.

Lemma caching_dispatch_request w req :
  caching product_id product deadline lookups w -> redis_now w < deadline ->
  caching product_id product deadline lookups (snd (dispatch_request req w)) /\
  redis_now (snd (dispatch_request req w)) = redis_now w.
Proof.
  intros Hcaching Hlive. unfold dispatch_request.
  destruct (match_url (path req)) as [[rule j]|]; [|now split].
  destruct (method req), rule;
    try (now split);
    try (now apply caching_get_products);
    try (now apply caching_get_product);
    try (now apply caching_create_product).
  - unfold health_check. py. rewrite time_time_eq. py.
    destruct (advance_clock_store w) as (_ & Hc & Hd & Hn & Hf & Hl).
    split; [|assumption]. now apply (caching_same w).
  - unfold health_check. py. rewrite time_time_eq. py.
    destruct (advance_clock_store w) as (_ & Hc & Hd & Hn & Hf & Hl).
    split; [|assumption]. now apply (caching_same w).
Qed.

Lemma caching_step w e :
  caching product_id product deadline lookups w ->
  redis_now w + elapsed [e] < deadline ->
  e <> Evict (product_key product_id) ->
  caching product_id product deadline lookups (step w e) /\
  redis_now (step w e) = redis_now w + elapsed [e].
Proof.
  intros Hcaching Hlive Hkeep.
  destruct e as [req|seconds|key]; cbn [step elapsed fold_right] in *.
  - rewrite Z.add_0_r in *. rewrite full_dispatch_request_eq.
    destruct (advance_clock_store w) as (_ & Hc & Hd & Hn & Hf & Hl).
    assert (Hcaching0 :
      caching product_id product deadline lookups (advance_clock w))
      by now apply (caching_same w).
    destruct (caching_dispatch_request _ req Hcaching0) as [H1 Hn1]; [lia|].
    destruct (dispatch_request req (advance_clock w)) as [o w1].
    cbn [snd] in *.
    destruct (advance_clock_store w1) as (_ & Hc1 & Hd1 & Hn1' & Hf1 & Hl1).
    unfold recorded. py. split; [|lia].
    now apply (caching_same w1).
  - py. split; [|lia]. now apply (caching_same w).
  - py. rewrite Z.add_0_r. split; [|reflexivity].
    apply (caching_frame w _ []); py; auto; [|now rewrite app_nil_r].
    apply lookup_delete_ne. congruence.
Qed.

Lemma elapsed_nonneg history : 0 <= elapsed history.
Proof.
  induction history as [|e history IH]; [cbn; lia|].
  unfold elapsed in *. cbn [fold_right]. destruct e; lia.
Qed.

Lemma caching_run history :
  forall w,
    caching product_id product deadline lookups w ->
    redis_now w + elapsed history < deadline ->
    ~ In (Evict (product_key product_id)) history ->
    caching product_id product deadline lookups (run history w) /\
    redis_now (run history w) = redis_now w + elapsed history.
Proof.
  induction history as [|e history IH]; intros w Hcaching Hlive Hkeep.
  - cbn. split; [assumption | lia].
  - assert (Hsplit : elapsed (e :: history) = elapsed [e] + elapsed history).
    { unfold elapsed. cbn [fold_right]. destruct e; lia. }
    pose proof (elapsed_nonneg history).
    destruct (caching_step w e Hcaching) as [Hstep Hnow].
    + lia.
    + intros ->. apply Hkeep. now left.
    + destruct (IH (step w e) Hstep) as [Hrun Hnow'].
      * lia.
      * intros Hin. apply Hkeep. now right.
      * cbn [run fold_left]. fold (run history (step w e)).
        split; [assumption | lia].
Qed.
End CachedItem.

(** C6.  After a successful read of an item that went to the source and so
    populated the cache, let anything happen for less than 3600 seconds of
    backend time: other requests, reads of the same item, writes, keys
    dropped other than the item's.  A read of the same id then returns the
    same response from the cache and does not search the source: the number
    of source lookups for the id is still where the first read left it. *)
Theorem second_read_is_served_from_cache
    (w w1 : world) (product_id : Z) (resp : response) (between : list event) :
  redis_client w = true -> redis_faults w = [] ->
  get_product product_id w = (Ret resp, w1) ->
  status_code resp = 200 ->
  source_lookups product_id w1 = S (source_lookups product_id w) ->
  elapsed between < 3600 ->
  ~ In (Evict (product_key product_id)) between ->
  exists w3,
    get_product product_id (run between w1) = (Ret resp, w3) /\
    source_lookups product_id w3 = source_lookups product_id w1 /\
    log w3 = log (run between w1) ++ [LogCacheHit (product_key product_id)].
Proof.
  intros Hc Hf Hrun Hst Hcount Httl Hkeep.
  destruct (get_product_from_source w w1 product_id resp Hc Hf Hrun Hst Hcount)
    as (Ht & -> & Hdb & Hc1 & Hf1 & Hnow & _).
  set (product := next_product product_id (PRODUCTS w)) in *.
  assert (Hcaching : caching product_id product (redis_now w + 3600)
                       (source_lookups product_id w1) w1).
  { unfold caching. rewrite Hdb, lookup_insert_eq. auto. }
  destruct (caching_run product_id product _ _ between w1 Hcaching)
    as [Hcaching2 Hnow2]; [lia | assumption |].
  set (w2 := run between w1) in *.
  assert (Hlive : redis_now w2 < redis_now w + 3600) by lia.
  pose proof (caching_hit _ _ _ _ w2 Hcaching2 Hlive) as Hg.
  eexists. split; [|split].
  - apply (get_product_hit w2 product_id product _ Hg Ht).
  - destruct Hcaching2 as (_ & _ & _ & _ & <-).
    unfold source_lookups. py.
    rewrite List.filter_app, length_app. cbn. lia.
  - reflexivity.
Qed.

Lemma second_read_is_served_from_cache_witness :
  exists w3,
    get_product 3
      (run [Serve GET_products; Elapse 1800; Serve (POST_products widget);
            Serve (GET_product "3"); Elapse 1799]
           (snd (get_product 3 (startup true []))))
      = (Ret (Response (Json (product_dict
           (Product 3 (JStr "Headphones") (JFloat 19999 (-2))
              (JStr "Electronics")))) 200), w3) /\
    source_lookups 3 w3 = 1%nat.
Proof.
  destruct (second_read_is_served_from_cache (startup true [])
              (snd (get_product 3 (startup true []))) 3
              (Response (Json (product_dict
                 (Product 3 (JStr "Headphones") (JFloat 19999 (-2))
                    (JStr "Electronics")))) 200)
              [Serve GET_products; Elapse 1800; Serve (POST_products widget);
               Serve (GET_product "3"); Elapse 1799])
    as (w3 & Hrun & Hcount & _); try reflexivity.
  - cbn. intros [H|[H|[H|[H|[H|[]]]]]]; discriminate.
  - exists w3. split; [exact Hrun | exact Hcount].
Defined.

(** * Request metrics *)

Lemma match_url_static p rule product_id :
  match_url p = Some (rule, product_id) -> rule <> RuleProduct ->
  p = rule_template rule.
Proof.
  unfold match_url.
  destruct (String.eqb p "/metrics") eqn:E1.
  { intros [= <- _] _. now apply String.eqb_eq in E1. }
  destruct (String.eqb p "/health") eqn:E2.
  { intros [= <- _] _. now apply String.eqb_eq in E2. }
  destruct (String.eqb p "/api/products") eqn:E3.
  { intros [= <- _] _. now apply String.eqb_eq in E3. }
  destruct (strip_prefix _ p) as [arg|]; [|discriminate].
  destruct (int_converter arg); [|discriminate].
  intros [= <- _] H. congruence.
Qed.

Lemma match_url_product p product_id :
  match_url p = Some (RuleProduct, product_id) ->
  p <> rule_template RuleProduct.
Proof. intros H ->. vm_compute in H. discriminate. Qed.

(** C8, as amended.  For every request the label recorded into the counter
    and into the histogram is the raw request path, [request.path], whether
    or not a rule matches it.  It is the rule's template only for the rules
    without a parameter; for the item rule it never is, so every item id
    asked for makes a label of its own. *)
Theorem metrics_label_is_request_path (req : request) (w : world) :
  exists resp latency,
    fst (full_dispatch_request req w) = Ret resp /\
    REQUEST_COUNT (snd (full_dispatch_request req w)) =
      <[(app_name, method_name (method req), path req, status_code resp) :=
          S (default 0%nat
               (REQUEST_COUNT w !!
                  (app_name, method_name (method req), path req,
                   status_code resp)))]> (REQUEST_COUNT w) /\
    REQUEST_LATENCY (snd (full_dispatch_request req w)) =
      <[(app_name, method_name (method req), path req) :=
          default [] (REQUEST_LATENCY w !!
                        (app_name, method_name (method req), path req))
          ++ [latency]]> (REQUEST_LATENCY w) /\
    (forall rule product_id,
       match_url (path req) = Some (rule, product_id) ->
       (rule <> RuleProduct -> path req = rule_template rule) /\
       (rule = RuleProduct -> path req <> rule_template rule)).
Proof.
  destruct (serve_registry req w) as (resp & latency & Hr & Hc & Hl & _).
  exists resp, latency. repeat split; try assumption.
  - now apply (match_url_static _ _ product_id).
  - intros ->. now apply (match_url_product _ product_id).
Qed.

Lemma metrics_label_is_request_path_witness :
  path (GET_product "7") <> rule_template RuleProduct.
Proof.
  destruct (metrics_label_is_request_path (GET_product "7") (startup true []))
    as (resp & latency & _ & _ & _ & Hrule).
  apply (Hrule RuleProduct 7); reflexivity.
Defined.

(** C8 as stated fails: requests for items 7 and 8 and for a path no rule
    matches are counted under their raw paths, three different labels, and
    nothing is counted under the item rule's template. *)
Lemma raw_paths_are_the_labels :
  match_url "/api/products/7" = Some (RuleProduct, 7) /\
  match_url "/api/products/8" = Some (RuleProduct, 8) /\
  match_url "/no/such/page" = None /\
  REQUEST_COUNT three_paths !! (app_name, "GET", "/api/products/7", 404)
    = Some 1%nat /\
  REQUEST_COUNT three_paths !! (app_name, "GET", "/api/products/8", 404)
    = Some 1%nat /\
  REQUEST_COUNT three_paths !! (app_name, "GET", "/no/such/page", 404)
    = Some 1%nat /\
  REQUEST_COUNT three_paths !!
    (app_name, "GET", rule_template RuleProduct, 404) = None /\
  ~ In "/api/products/7" (map rule_template declared_rules).
Proof.
  repeat split; try (vm_compute; reflexivity).
  cbn. intros [H|[H|[H|[H|[]]]]]; discriminate.
Qed.







(** * Further properties: the list of products *)

(** [create_product] leaves [PRODUCTS] as the payload alone decides,
    whatever the client and the backend do afterwards. *)
Lemma create_product_products w payload :
  PRODUCTS (snd (create_product payload w)) =
    snd (source_create payload (PRODUCTS w)).
Proof.
  unfold create_product, source_create, json_get.
  destruct (truthy payload); cbn [negb]; [|reflexivity].
  destruct payload; try reflexivity.
  py. destruct (redis_client w); py; [|reflexivity].
  destruct (redis_faults w) as [|[] fs]; reflexivity.
Qed.

Lemma dispatch_request_products req w :
  PRODUCTS (snd (dispatch_request req w)) = source_after req (PRODUCTS w).
Proof.
  pose (R := fun w w' : world => PRODUCTS w' = PRODUCTS w).
  assert (Hrefl : forall w, R w w) by reflexivity.
  assert (Htrans : forall a b c, R a b -> R b c -> R a c)
    by (unfold R; congruence).
  assert (Hdb : forall db w, R w (set_redis_db db w)) by reflexivity.
  assert (Hf : forall fs w, R w (set_redis_faults fs w)) by reflexivity.
  assert (Hl : forall l w, R w (set_log l w)) by reflexivity.
  assert (Hc : forall w, R w (advance_clock w)).
  { intros w0. unfold R. now destruct (advance_clock_store w0). }
  unfold dispatch_request, source_after.
  destruct (match_url (path req)) as [[rule product_id]|];
    [|now destruct (method req)].
  destruct (method req), rule; try reflexivity;
    try apply create_product_products;
    first [ apply (keeps_metrics R Hrefl Htrans)
          | apply (keeps_health_check R Hrefl Htrans Hc)
          | apply (keeps_get_products R Hrefl Htrans Hdb Hf Hl)
          | apply (keeps_get_product R Hrefl Htrans Hdb Hf Hl) ].
Qed.

Lemma full_dispatch_request_products req w :
  PRODUCTS (snd (full_dispatch_request req w)) = source_after req (PRODUCTS w).
Proof.
  rewrite full_dispatch_request_eq.
  pose proof (dispatch_request_products req (advance_clock w)) as H.
  destruct (dispatch_request req (advance_clock w)) as [o w1]. cbn [snd] in *.
  destruct (advance_clock_store w) as (Hp & _).
  destruct (advance_clock_store w1) as (Hp1 & _).
  unfold recorded. py. congruence.
Qed.

Lemma run_products history :
  forall w, PRODUCTS (run history w) = source_run history (PRODUCTS w).
Proof.
  induction history as [|e history IH]; intros w; [reflexivity|].
  cbn [run source_run fold_left]. fold (run history (step w e)).
  rewrite IH. f_equal.
  destruct e; cbn [step]; [apply full_dispatch_request_products | |];
    reflexivity.
Qed.

Lemma source_after_appends req ps :
  source_after req ps = ps \/
  exists name price category,
    source_after req ps =
      ps ++ [Product (Z.of_nat (length ps) + 1) name price category].
Proof.
  unfold source_after, source_create.
  destruct (method req); auto.
  destruct (match_url (path req)) as [[[] _]|]; auto.
  destruct (negb (truthy (request_json req))); auto.
  destruct (request_json req); cbn [snd]; eauto.
Qed.

Lemma numbered_from_one_app ps p :
  numbered_from_one ps -> p_id p = Z.of_nat (length ps) + 1 ->
  numbered_from_one (ps ++ [p]).
Proof.
  intros Hps Hp i q Hq.
  destruct (decide (i < length ps)%nat) as [Hlt|Hge].
  - rewrite lookup_app_l in Hq by assumption. now apply Hps.
  - rewrite lookup_app_r in Hq by lia.
    destruct (i - length ps)%nat as [|k] eqn:Hk; [|discriminate].
    injection Hq as <-. rewrite Hp. f_equal. lia.
Qed.

Lemma source_run_appends history :
  forall ps, exists added, source_run history ps = ps ++ added.
Proof.
  induction history as [|e history IH]; intros ps.
  - exists []. cbn. now rewrite app_nil_r.
  - cbn [source_run fold_left].
    assert (exists one, match e with
                        | Serve req => source_after req ps
                        | _ => ps
                        end = ps ++ one) as [one ->].
    { destruct e as [req| |]; try (exists []; now rewrite app_nil_r).
      destruct (source_after_appends req ps) as [-> | (n & p & c & ->)];
        [exists []; now rewrite app_nil_r | eauto]. }
    destruct (IH (ps ++ one)) as [added Hadded].
    exists (one ++ added). unfold source_run in Hadded.
    now rewrite Hadded, app_assoc.
Qed.

Lemma source_run_numbered history :
  forall ps, numbered_from_one ps -> numbered_from_one (source_run history ps).
Proof.
  induction history as [|e history IH]; intros ps Hps; [assumption|].
  cbn [source_run fold_left]. apply IH.
  destruct e as [req| |]; try assumption.
  destruct (source_after_appends req ps) as [-> | (n & p & c & ->)];
    [assumption | now apply numbered_from_one_app].
Qed.

Lemma numbered_from_one_NoDup ps :
  numbered_from_one ps -> NoDup (map p_id ps).
Proof.
  intros Hps. apply NoDup_alt. intros i j x Hi Hj.
  rewrite list_lookup_fmap in Hi, Hj.
  destruct (ps !! i) as [p|] eqn:Hp; [|discriminate].
  destruct (ps !! j) as [q|] eqn:Hq; [|discriminate].
  cbn in Hi, Hj. apply Hps in Hp. apply Hps in Hq.
  injection Hi as Hi. injection Hj as Hj. lia.
Qed.

Lemma numbered_from_one_SAMPLE : numbered_from_one SAMPLE_PRODUCTS.
Proof.
  intros i p H. do 5 (destruct i as [|i]; [now injection H as <-|]).
  discriminate.
Qed.


(** X1.  Nothing is ever removed from [PRODUCTS] or changed in it: after any
    history, from any world (whatever the client, the backend content and
    the faults to come), the list is the old list with records added at the
    end. *)
Theorem products_only_grow (history : list event) (w : world) :
  exists added, PRODUCTS (run history w) = PRODUCTS w ++ added.
Proof.
  rewrite run_products. apply source_run_appends.
Qed.

(** X2.  A list whose ids are 1, 2, 3, ... in order keeps that numbering
    through any history, so ids stay pairwise distinct: [len(PRODUCTS) + 1]
    is always a fresh id. *)
Theorem ids_stay_numbered_from_one (history : list event) (w : world) :
  numbered_from_one (PRODUCTS w) ->
  numbered_from_one (PRODUCTS (run history w)) /\
  NoDup (map p_id (PRODUCTS (run history w))).
Proof.
  intros Hnum. rewrite run_products.
  pose proof (source_run_numbered history _ Hnum) as H.
  split; [assumption | now apply numbered_from_one_NoDup].
Qed.

Lemma ids_stay_numbered_from_one_witness :
  NoDup (map p_id (PRODUCTS
    (run [Serve (POST_products widget); Serve (POST_products name_only)]
         backend_down))).
Proof.
  apply (ids_stay_numbered_from_one
           [Serve (POST_products widget); Serve (POST_products name_only)]
           backend_down).
  exact numbered_from_one_SAMPLE.
Defined.

(** X3.  The only request that changes [PRODUCTS] is a POST to
    [/api/products] whose payload is a non-empty JSON object; it appends
    exactly one record, with id [len(PRODUCTS) + 1], also when the
    invalidation that follows raises.  Every other request leaves the list
    as it was, in any world. *)
Theorem only_a_post_changes_products (req : request) (w : world) :
  (forall fields,
     method req = POST -> path req = "/api/products" ->
     request_json req = JObj fields -> fields <> [] ->
     PRODUCTS (snd (full_dispatch_request req w)) =
       PRODUCTS w ++ [committed fields w]) /\
  (PRODUCTS (snd (full_dispatch_request req w)) <> PRODUCTS w ->
   method req = POST /\ path req = "/api/products" /\
   exists fields, request_json req = JObj fields /\ fields <> []).
Proof.
  rewrite full_dispatch_request_products. unfold source_after. split.
  - intros fields -> -> Hj Hne. cbn. rewrite Hj. unfold source_create.
    destruct fields; [congruence | reflexivity].
  - intros Hchg.
    destruct (method req); try congruence.
    destruct (match_url (path req)) as [[rule product_id]|] eqn:Hm;
      [|congruence].
    destruct rule; try congruence.
    pose proof (match_url_static _ _ _ Hm ltac:(discriminate)) as Hp.
    split; [reflexivity|]. split; [exact Hp|].
    unfold source_create in Hchg.
    destruct (truthy (request_json req)) eqn:Ht; cbn [negb snd] in Hchg;
      [|congruence].
    destruct (request_json req) as [|b|n|m e|s|items|fields];
      cbn [snd] in Hchg; try congruence.
    exists fields. split; [reflexivity|]. now destruct fields.
Qed.

Lemma only_a_post_changes_products_witness :
  PRODUCTS (snd (full_dispatch_request (POST_products widget) backend_down)) =
    PRODUCTS backend_down ++
      [Product 6 (JStr "Widget") (JFloat 999 (-2)) (JStr "Tools")].
Proof.
  apply (proj1 (only_a_post_changes_products (POST_products widget) backend_down)
           [("name", JStr "Widget"); ("price", JFloat 999 (-2));
            ("category", JStr "Tools")]);
    (reflexivity || discriminate).
Defined.






(** * Further properties: requests in any world *)

Lemma full_dispatch_request_run req w o w1 :
  dispatch_request req (advance_clock w) = (o, w1) ->
  full_dispatch_request req w =
    (Ret (answer o),
     recorded req (next_reading w1 - next_reading w) (answer o)
       (advance_clock w1)).
Proof. intros H. rewrite full_dispatch_request_eq. now rewrite H. Qed.

(** The hooks leave everything but the clock and the registry alone. *)
Lemma recorded_store req latency resp w :
  PRODUCTS (recorded req latency resp (advance_clock w)) = PRODUCTS w /\
  redis_client (recorded req latency resp (advance_clock w)) = redis_client w /\
  redis_db (recorded req latency resp (advance_clock w)) = redis_db w /\
  redis_now (recorded req latency resp (advance_clock w)) = redis_now w /\
  redis_faults (recorded req latency resp (advance_clock w)) = redis_faults w /\
  log (recorded req latency resp (advance_clock w)) = log w.
Proof. unfold recorded. py. apply advance_clock_store. Qed.

Lemma cached_bytes_advance_clock key w :
  cached_bytes key (advance_clock w) = cached_bytes key w.
Proof.
  unfold cached_bytes.
  destruct (advance_clock_store w) as (_ & _ & -> & -> & _). reflexivity.
Qed.

Lemma health_check_eq w :
  health_check w =
    (Ret (Response
            (Json (JObj [("status", JStr "up");
                         ("timestamp", JFloat (next_reading w) (-6));
                         ("redis", JStr (if redis_client w
                                         then "connected"
                                         else "disconnected"))]))
            200),
     advance_clock w).
Proof.
  unfold health_check. py. rewrite time_time_eq. py.
  destruct (advance_clock_store w) as (_ & -> & _). reflexivity.
Qed.

(** X6.  The health view never calls the backend: in any world the request
    is answered 200 with status "up", and the "redis" field only tells
    whether the client object exists, so it reads "connected" even while
    every backend call would raise.  The pending faults, the backend, the
    list and the log are left as they were. *)
Theorem health_reports_the_client_not_the_backend
    (payload : json) (w : world) :
  let served := full_dispatch_request (Request GET "/health" payload) w in
  (exists timestamp,
     fst served =
       Ret (Response
              (Json (JObj [("status", JStr "up");
                           ("timestamp", JFloat timestamp (-6));
                           ("redis", JStr (if redis_client w
                                           then "connected"
                                           else "disconnected"))]))
              200)) /\
  redis_faults (snd served) = redis_faults w /\
  redis_db (snd served) = redis_db w /\
  PRODUCTS (snd served) = PRODUCTS w /\
  log (snd served) = log w.
Proof.
  intros served. unfold served.
  pose proof (health_check_eq (advance_clock w)) as Hd.
  change (health_check (advance_clock w))
    with (dispatch_request (Request GET "/health" payload) (advance_clock w))
    in Hd.
  rewrite (full_dispatch_request_run _ _ _ _ Hd). cbn [fst snd answer].
  destruct (advance_clock_store w) as (Hp & Hc & Hdb & _ & Hf & Hl).
  destruct (advance_clock_store (advance_clock w))
    as (Hp1 & _ & Hdb1 & _ & Hf1 & Hl1).
  split.
  - exists (next_reading (advance_clock w)). now rewrite Hc.
  - unfold recorded. py.
    destruct (advance_clock_store (advance_clock (advance_clock w)))
      as (Hp2 & _ & Hdb2 & _ & Hf2 & Hl2).
    repeat split; congruence.
Qed.

Lemma health_reports_the_client_not_the_backend_example :
  fst (full_dispatch_request (Request GET "/health" JNull) backend_down) =
    Ret (Response
           (Json (JObj [("status", JStr "up"); ("timestamp", JFloat 0 (-6));
                        ("redis", JStr "connected")])) 200) /\
  redis_faults (snd (full_dispatch_request (Request GET "/health" JNull)
                       backend_down)) = [true].
Proof. vm_compute. split; reflexivity. Qed.

Lemma no_client_dispatch req w :
  redis_client w = false ->
  redis_client (snd (dispatch_request req w)) = false /\
  redis_db (snd (dispatch_request req w)) = redis_db w /\
  redis_faults (snd (dispatch_request req w)) = redis_faults w /\
  (is_catalogue_read req = true ->
   fst (dispatch_request req w) =
     Ret (match match_url (path req) with
          | Some (RuleProduct, product_id) =>
              source_product product_id (PRODUCTS w)
          | _ => Response (Json (products_json (PRODUCTS w))) 200
          end)).
Proof.
  intros Hc. unfold dispatch_request, is_catalogue_read.
  assert (Hlist : get_products w =
            (Ret (Response (Json (products_json (PRODUCTS w))) 200),
             set_log (log w ++ [LogRetrievingAll]) w)).
  { rewrite (get_products_miss w JNull w
               (get_cached_data_no_client w _ Hc) eq_refl).
    now apply load_products_no_client. }
  assert (Hitem : forall product_id,
            fst (get_product product_id w) =
              Ret (source_product product_id (PRODUCTS w)) /\
            redis_client (snd (get_product product_id w)) = false /\
            redis_db (snd (get_product product_id w)) = redis_db w /\
            redis_faults (snd (get_product product_id w)) = redis_faults w).
  { intros product_id.
    rewrite (get_product_miss w product_id JNull w
               (get_cached_data_no_client w _ Hc) eq_refl).
    unfold source_product.
    destruct (truthy (next_product product_id (PRODUCTS w))) eqn:Ht.
    - rewrite load_product_no_client by assumption. now py.
    - rewrite load_product_absent by assumption. now py. }
  assert (Hcreate : forall payload,
            redis_client (snd (create_product payload w)) = false /\
            redis_db (snd (create_product payload w)) = redis_db w /\
            redis_faults (snd (create_product payload w)) = redis_faults w).
  { intros payload. destruct (truthy payload) eqn:Ht.
    - destruct payload as [|b|n|m e|s|items|fields];
        try (rewrite create_product_not_dict
               by (assumption || discriminate); now py).
      rewrite create_product_no_client by (assumption || now destruct fields).
      now py.
    - rewrite create_product_rejected by assumption. now py. }
  destruct (match_url (path req)) as [[rule product_id]|];
    [|destruct (method req); now py].
  destruct (method req), rule;
    try (now py);
    try (rewrite Hlist; now py);
    try (destruct (Hitem product_id) as (-> & ? & ? & ?); now py);
    try (destruct (Hcreate (request_json req)) as (? & ? & ?); now py);
    try (rewrite health_check_eq;
         destruct (advance_clock_store w) as (_ & ? & ? & _ & ? & _);
         py; repeat split; congruence).
Qed.

(** X7.  Without a client the backend plays no part at all: in any world
    whose [redis_client] is [None], whatever the backend holds and whatever
    faults are pending, a request makes no backend call (the backend and the
    pending faults are left as they were), and a catalogue read is answered
    from [PRODUCTS] alone. *)
Theorem without_client_backend_plays_no_part (req : request) (w : world) :
  redis_client w = false ->
  redis_db (snd (full_dispatch_request req w)) = redis_db w /\
  redis_faults (snd (full_dispatch_request req w)) = redis_faults w /\
  redis_client (snd (full_dispatch_request req w)) = false /\
  (is_catalogue_read req = true ->
   fst (full_dispatch_request req w) =
     Ret (match match_url (path req) with
          | Some (RuleProduct, product_id) =>
              source_product product_id (PRODUCTS w)
          | _ => Response (Json (products_json (PRODUCTS w))) 200
          end)).
Proof.
  intros Hc.
  destruct (advance_clock_store w) as (Hp & Hc0 & Hdb & _ & Hf & _).
  rewrite <- Hc0 in Hc.
  destruct (no_client_dispatch req _ Hc) as (Hc1 & Hdb1 & Hf1 & Hread).
  rewrite full_dispatch_request_answer.
  rewrite full_dispatch_request_eq.
  destruct (dispatch_request req (advance_clock w)) as [o w1].
  cbn [fst snd] in *.
  destruct (recorded_store req (next_reading w1 - next_reading w) (answer o) w1)
    as (_ & Hc2 & Hdb2 & _ & Hf2 & _).
  repeat split; try congruence.
  intros Hr. rewrite (Hread Hr), Hp. reflexivity.
Qed.

Lemma without_client_backend_plays_no_part_witness :
  fst (full_dispatch_request GET_products
         (set_redis_faults [true; true] (startup false []))) =
    Ret (Response (Json (products_json SAMPLE_PRODUCTS)) 200).
Proof.
  apply (without_client_backend_plays_no_part GET_products
           (set_redis_faults [true; true] (startup false [])));
    reflexivity.
Defined.

(** * Further properties: what a read makes of the cached bytes *)

Lemma catalogue_read_view req :
  is_catalogue_read req = true ->
  dispatch_request req =
    match match_url (path req) with
    | Some (RuleProduct, product_id) => get_product product_id
    | _ => get_products
    end.
Proof.
  unfold is_catalogue_read, dispatch_request.
  destruct (method req); try discriminate.
  now destruct (match_url (path req)) as [[[] product_id]|].
Qed.

(** A catalogue read whose cache lookup returns [v] and is a hit. *)
Lemma catalogue_read_hit req w v w1 :
  is_catalogue_read req = true ->
  get_cached_data (cache_key_of req) w = (Ret v, w1) -> truthy v = true ->
  dispatch_request req w = (Ret (Response (Json v) 200), w1).
Proof.
  intros Hread Hg Hv. rewrite (catalogue_read_view req Hread).
  unfold cache_key_of in Hg.
  destruct (match_url (path req)) as [[[] product_id]|];
    first [ now apply get_products_hit | now apply get_product_hit ].
Qed.

Lemma catalogue_read_raise req w e w1 :
  is_catalogue_read req = true ->
  get_cached_data (cache_key_of req) w = (Raise e, w1) ->
  dispatch_request req w = (Raise e, w1).
Proof.
  intros Hread Hg. rewrite (catalogue_read_view req Hread).
  unfold cache_key_of in Hg.
  destruct (match_url (path req)) as [[[] product_id]|];
    first [ now apply get_products_raise | now apply get_product_raise ].
Qed.

(** X8.  A live cache entry with a truthy JSON value is returned as it is,
    with status 200, and [PRODUCTS] is not looked at: the answer is the same
    whatever the list holds, also when it has no record with the id.  Only
    the cache-hit line is added to the log. *)
Theorem live_entry_is_served_unchecked
    (req : request) (w : world) (v : json) (ps : list product) :
  is_catalogue_read req = true ->
  redis_client w = true -> redis_faults w = [] ->
  cached_bytes (cache_key_of req) w = Some (BytesJson v) ->
  truthy v = true ->
  fst (full_dispatch_request req (set_PRODUCTS ps w)) =
    Ret (Response (Json v) 200) /\
  log (snd (full_dispatch_request req (set_PRODUCTS ps w))) =
    log w ++ [LogCacheHit (cache_key_of req)] /\
  redis_db (snd (full_dispatch_request req (set_PRODUCTS ps w))) = redis_db w.
Proof.
  intros Hread Hc Hf Hcb Hv.
  set (w' := set_PRODUCTS ps w).
  destruct (advance_clock_store w') as (_ & Hc0 & Hdb0 & _ & Hf0 & Hl0).
  assert (Hg : get_cached_data (cache_key_of req) (advance_clock w') =
               (Ret v, set_log (log (advance_clock w')
                                ++ [LogCacheHit (cache_key_of req)])
                         (advance_clock w'))).
  { rewrite get_cached_data_ok by (rewrite ?Hc0, ?Hf0; assumption).
    rewrite cached_bytes_advance_clock.
    change (cached_bytes (cache_key_of req) w')
      with (cached_bytes (cache_key_of req) w).
    now rewrite Hcb. }
  rewrite (full_dispatch_request_run _ _ _ _
             (catalogue_read_hit req _ v _ Hread Hg Hv)).
  cbn [fst snd answer]. split; [reflexivity|].
  match goal with
  | |- context [recorded ?r ?l ?resp (advance_clock ?x)] =>
      destruct (recorded_store r l resp x) as (_ & _ & Hdb2 & _ & _ & Hl2)
  end.
  rewrite Hl2, Hdb2. py. rewrite Hl0, Hdb0. now split.
Qed.

Lemma live_entry_is_served_unchecked_witness :
  List.find (fun p => p_id p =? 99) (PRODUCTS ghost_cached) = None /\
  fst (full_dispatch_request (GET_product "99") ghost_cached) =
    Ret (Response
           (Json (product_dict (Product 99 (JStr "Ghost") JNull JNull))) 200).
Proof.
  split; [reflexivity|].
  apply (live_entry_is_served_unchecked (GET_product "99") ghost_cached
           (product_dict (Product 99 (JStr "Ghost") JNull JNull))
           SAMPLE_PRODUCTS);
    reflexivity.
Defined.

(** X9.  Cached bytes that are not JSON make the read fail: [json.loads]
    raises, nothing catches it, and the request is answered 500.  The entry
    is left in the backend, so the read keeps failing while the entry
    lives. *)
Theorem undecodable_entry_fails_the_read
    (req : request) (w : world) (raw : string) :
  is_catalogue_read req = true ->
  redis_client w = true -> redis_faults w = [] ->
  cached_bytes (cache_key_of req) w = Some (BytesOther raw) ->
  let w' := snd (full_dispatch_request req w) in
  fst (full_dispatch_request req w) = Ret (Response ErrorPage 500) /\
  redis_db w' = redis_db w /\ PRODUCTS w' = PRODUCTS w /\
  redis_client w' = true /\ redis_faults w' = [] /\
  cached_bytes (cache_key_of req) w' = Some (BytesOther raw).
Proof.
  intros Hread Hc Hf Hcb w'. unfold w'.
  destruct (advance_clock_store w) as (Hp0 & Hc0 & Hdb0 & Hn0 & Hf0 & _).
  assert (Hg : get_cached_data (cache_key_of req) (advance_clock w) =
               (Raise JSONDecodeError,
                set_log (log (advance_clock w)
                         ++ [LogCacheHit (cache_key_of req)])
                  (advance_clock w))).
  { rewrite get_cached_data_ok by (rewrite ?Hc0, ?Hf0; assumption).
    now rewrite cached_bytes_advance_clock, Hcb. }
  rewrite (full_dispatch_request_run _ _ _ _
             (catalogue_read_raise req _ _ _ Hread Hg)).
  cbn [fst snd answer]. split; [reflexivity|].
  match goal with
  | |- context [recorded ?r ?l ?resp (advance_clock ?x)] =>
      destruct (recorded_store r l resp x)
        as (Hp2 & Hc2 & Hdb2 & Hn2 & Hf2 & _)
  end.
  unfold cached_bytes in *. rewrite Hp2, Hc2, Hdb2, Hn2, Hf2. py.
  rewrite Hp0, Hc0, Hdb0, Hn0, Hf0. now repeat split.
Qed.

Lemma undecodable_entry_fails_the_read_witness :
  fst (full_dispatch_request GET_products garbage_cached) =
    Ret (Response ErrorPage 500).
Proof.
  apply (undecodable_entry_fails_the_read GET_products garbage_cached "<html>");
    reflexivity.
Defined.

(** * Further properties: expiry and staleness *)

Lemma live_value_spec now b deadline :
  live_value now (Some (b, deadline)) =
    if decide (now < deadline) then Some b else None.
Proof.
  cbn. destruct (Z.ltb_spec now deadline); case_decide; (reflexivity || lia).
Qed.

(** The listing read by a working client, by what the aggregate key holds. *)
Lemma listing_read_by_entry w v deadline :
  redis_client w = true -> redis_faults w = [] ->
  redis_db w !! "all_products" = Some (BytesJson v, deadline) ->
  truthy v = true ->
  fst (full_dispatch_request GET_products w) =
    Ret (Response
           (Json (if decide (redis_now w < deadline)
                  then v else products_json (PRODUCTS w))) 200).
Proof.
  intros Hc Hf Hdb Hv.
  destruct (advance_clock_store w) as (Hp0 & Hc0 & Hdb0 & Hn0 & Hf0 & _).
  rewrite full_dispatch_request_answer.
  change (dispatch_request GET_products) with get_products.
  assert (Hc' : redis_client (advance_clock w) = true) by congruence.
  assert (Hf' : redis_faults (advance_clock w) = []) by congruence.
  pose proof (get_cached_data_ok (advance_clock w) "all_products" Hc' Hf')
    as Hg.
  rewrite cached_bytes_advance_clock in Hg. unfold cached_bytes in Hg.
  rewrite Hdb, live_value_spec in Hg.
  case_decide.
  - cbn in Hg. now rewrite (get_products_hit _ _ _ Hg Hv).
  - rewrite (get_products_miss _ JNull _ Hg eq_refl).
    rewrite load_products_ok by assumption. cbn [fst answer]. now rewrite Hp0.
Qed.

(** X10.  A write whose invalidation raises is committed all the same, and
    the cached listing is not touched: while that entry lives, the listing
    is served from it without the new record; once it has expired, the
    listing is loaded from [PRODUCTS] and shows the new record. *)
Theorem failed_invalidation_leaves_stale_listing
    (w : world) (v : json) (deadline : Z) (fields : list (string * json))
    (seconds : N) :
  redis_client w = true -> redis_faults w = [true] ->
  redis_db w !! "all_products" = Some (BytesJson v, deadline) ->
  truthy v = true -> fields <> [] ->
  let w1 := snd (full_dispatch_request (POST_products (JObj fields)) w) in
  fst (full_dispatch_request (POST_products (JObj fields)) w) =
    Ret (Response ErrorPage 500) /\
  PRODUCTS w1 = PRODUCTS w ++ [committed fields w] /\
  fst (full_dispatch_request GET_products (step w1 (Elapse seconds))) =
    Ret (Response
           (Json (if decide (redis_now w + Z.of_N seconds < deadline)
                  then v
                  else products_json (PRODUCTS w ++ [committed fields w])))
           200).
Proof.
  intros Hc Hf Hdb Hv Hne w1.
  destruct (advance_clock_store w) as (Hp0 & Hc0 & Hdb0 & Hn0 & Hf0 & _).
  assert (Hrun : dispatch_request (POST_products (JObj fields)) (advance_clock w)
                 = _)
    by (apply (create_product_fault (advance_clock w) fields []);
        congruence).
  pose proof (full_dispatch_request_run _ _ _ _ Hrun) as Hfull.
  unfold w1. rewrite Hfull. cbn [fst snd answer].
  split; [reflexivity|].
  match goal with
  | |- context [recorded ?r ?l ?resp (advance_clock ?x)] =>
      destruct (recorded_store r l resp x)
        as (Hp2 & Hc2 & Hdb2 & Hn2 & Hf2 & _);
      set (w2 := recorded r l resp (advance_clock x)) in *
  end.
  revert Hp2 Hc2 Hdb2 Hn2 Hf2. py. unfold committed. rewrite Hp0.
  intros Hp2 Hc2 Hdb2 Hn2 Hf2.
  split; [assumption|].
  rewrite (listing_read_by_entry (step w2 (Elapse seconds)) v deadline);
    cbn [step]; py; try congruence.
  now rewrite Hn2, Hn0, Hp2.
Qed.

Lemma failed_invalidation_leaves_stale_listing_witness :
  fst (full_dispatch_request GET_products
         (step (snd (full_dispatch_request (POST_products widget)
                       (set_redis_faults [true] listed)))
               (Elapse 10))) =
    Ret (Response (Json (products_json SAMPLE_PRODUCTS)) 200) /\
  length (PRODUCTS (snd (full_dispatch_request (POST_products widget)
                           (set_redis_faults [true] listed)))) = 6%nat.
Proof.
  destruct (failed_invalidation_leaves_stale_listing
              (set_redis_faults [true] listed)
              (products_json SAMPLE_PRODUCTS) 3600
              [("name", JStr "Widget"); ("price", JFloat 999 (-2));
               ("category", JStr "Tools")] 10)
    as (_ & Hps & Hread); try reflexivity; [discriminate|].
  split; [exact Hread |]. unfold widget. now rewrite Hps.
Defined.

(** X11.  An item entry lives 3600 backend seconds and no longer: when that
    much time or more has passed since the read that stored it, the next
    read of the id searches [PRODUCTS] again, returns the same record, and
    stores it anew for another 3600 seconds. *)
Theorem expired_item_is_loaded_again
    (w w1 : world) (product_id : Z) (resp : response) (seconds : N) :
  redis_client w = true -> redis_faults w = [] ->
  get_product product_id w = (Ret resp, w1) ->
  status_code resp = 200 ->
  source_lookups product_id w1 = S (source_lookups product_id w) ->
  3600 <= Z.of_N seconds ->
  exists w3,
    get_product product_id (step w1 (Elapse seconds)) = (Ret resp, w3) /\
    source_lookups product_id w3 = S (source_lookups product_id w1) /\
    redis_db w3 !! product_key product_id =
      Some (BytesJson (next_product product_id (PRODUCTS w)),
            redis_now w + Z.of_N seconds + 3600).
Proof.
  intros Hc Hf Hrun Hst Hcount Hlate.
  destruct (get_product_from_source w w1 product_id resp Hc Hf Hrun Hst Hcount)
    as (Ht & -> & Hdb & Hc1 & Hf1 & Hnow & Hps).
  set (w2 := step w1 (Elapse seconds)).
  assert (Hg : get_cached_data (product_key product_id) w2 = (Ret JNull, w2)).
  { rewrite get_cached_data_ok by assumption.
    unfold cached_bytes, w2. cbn [step]. py.
    rewrite Hdb, lookup_insert_eq, live_value_spec.
    now rewrite decide_False by lia. }
  rewrite (get_product_miss w2 product_id JNull w2 Hg eq_refl).
  assert (Hps2 : PRODUCTS w2 = PRODUCTS w) by exact Hps.
  rewrite load_product_ok by (rewrite ?Hps2; assumption).
  eexists. split; [now rewrite Hps2|]. unfold w2. cbn [step]. py. split.
  - unfold source_lookups. py.
    rewrite List.filter_app, length_app. cbn. rewrite Z.eqb_refl. cbn. lia.
  - rewrite lookup_insert_eq, Hnow. reflexivity.
Qed.

Lemma expired_item_is_loaded_again_witness :
  exists w3,
    get_product 3 (step (snd (get_product 3 (startup true []))) (Elapse 3600))
      = (Ret (Response (Json (product_dict
           (Product 3 (JStr "Headphones") (JFloat 19999 (-2))
              (JStr "Electronics")))) 200), w3) /\
    source_lookups 3 w3 = 2%nat.
Proof.
  destruct (expired_item_is_loaded_again (startup true [])
              (snd (get_product 3 (startup true []))) 3
              (Response (Json (product_dict
                 (Product 3 (JStr "Headphones") (JFloat 19999 (-2))
                    (JStr "Electronics")))) 200) 3600)
    as (w3 & Hrun & Hcount & _);
    try reflexivity; try (vm_compute; discriminate).
  exists w3. split; [exact Hrun | exact Hcount].
Defined.

(** X12.  What [set_cached_data] stores, [get_cached_data] returns: with a
    working client, a value stored under a key for [expires] seconds is
    read back unchanged (be it truthy or not) as long as less than
    [expires] seconds have passed, and is absent from then on.  The other
    keys keep what they had. *)
Theorem set_then_get_cached_data
    (w : world) (key : string) (data : json) (expires : Z) (seconds : N) :
  redis_client w = true -> redis_faults w = [] -> 0 < expires ->
  let w1 := step (snd (set_cached_data key data expires w)) (Elapse seconds) in
  fst (set_cached_data key data expires w) = Ret tt /\
  fst (get_cached_data key w1) =
    Ret (if decide (Z.of_N seconds < expires) then data else JNull) /\
  (forall other, other <> key -> redis_db w1 !! other = redis_db w !! other).
Proof.
  intros Hc Hf Hpos w1. unfold w1.
  rewrite set_cached_data_ok by assumption. cbn [fst snd step]. py.
  split; [reflexivity|]. split.
  - rewrite get_cached_data_ok by assumption.
    unfold cached_bytes. py. rewrite lookup_insert_eq, live_value_spec.
    case_decide; case_decide; try lia; reflexivity.
  - intros other Hne. now apply lookup_insert_ne.
Qed.

Lemma set_then_get_cached_data_witness :
  fst (get_cached_data "k"
         (step (snd (set_cached_data "k" (JInt 0) 60 (startup true [])))
               (Elapse 59))) = Ret (JInt 0).
Proof.
  apply (set_then_get_cached_data (startup true []) "k" (JInt 0) 60 59);
    reflexivity.
Defined.

(** * Further properties: the registry and the statuses *)

Lemma step_registry_grows e w (l4 : count_label) (l3 : latency_label) :
  (count_of l4 w <= count_of l4 (step w e))%nat /\
  exists new, observations_of l3 (step w e) = observations_of l3 w ++ new.
Proof.
  unfold count_of, observations_of.
  destruct e as [req|seconds|key]; cbn [step];
    try (py; split; [lia | exists []; now rewrite app_nil_r]).
  destruct (serve_registry req w) as (resp & latency & _ & -> & -> & _).
  rewrite !lookup_insert. split.
  - case_decide as H; [subst l4|lia].
    destruct (REQUEST_COUNT w !! _); cbn; unfold id; lia.
  - case_decide as H; [subst l3; cbn; eauto|].
    exists []. now rewrite app_nil_r.
Qed.

(** X13.  Counters never go down and observations are never taken back:
    over any history, in any world, the count under every label is at least
    what it was, and the observations under every label are the old ones
    followed by new ones. *)
Theorem registry_only_grows
    (history : list event) (w : world)
    (l4 : count_label) (l3 : latency_label) :
  (count_of l4 w <= count_of l4 (run history w))%nat /\
  exists new, observations_of l3 (run history w) = observations_of l3 w ++ new.
Proof.
  revert w. induction history as [|e history IH]; intros w.
  - split; [reflexivity | exists []; now rewrite app_nil_r].
  - cbn [run fold_left]. fold (run history (step w e)).
    destruct (step_registry_grows e w l4 l3) as [Hc [new1 Ho]].
    destruct (IH (step w e)) as [Hc2 [new2 Ho2]].
    split; [lia|]. exists (new1 ++ new2). now rewrite Ho2, Ho, app_assoc.
Qed.

(** X14.  The cache keys do not collide: two different ids have different
    item keys, and no item key is the aggregate key. *)
Theorem cache_keys_do_not_collide (i j : Z) :
  (product_key i = product_key j -> i = j) /\
  product_key i <> "all_products".
Proof.
  split; [apply product_key_inj | apply product_key_not_listing].
Qed.

Lemma cache_keys_do_not_collide_witness : product_key 12 <> product_key 1.
Proof.
  intros H. apply (proj1 (cache_keys_do_not_collide 12 1)) in H. discriminate.
Defined.

Section Returns.
Context {A B : Type} (P : B -> Prop).


End Returns.





(** X16.  A create whose payload is truthy but not a JSON object (an array,
    a string, a number, [true]) fails on [request.json.get]: the request is
    answered 500, before anything is committed and before the backend is
    called.  The list, the backend, the pending faults and the log are left
    as they were, in any world. *)
Theorem non_object_payload_fails (payload : json) (w : world) :
  truthy payload = true -> (forall fields, payload <> JObj fields) ->
  let served := full_dispatch_request (POST_products payload) w in
  fst served = Ret (Response ErrorPage 500) /\
  PRODUCTS (snd served) = PRODUCTS w /\
  redis_db (snd served) = redis_db w /\
  redis_faults (snd served) = redis_faults w /\
  log (snd served) = log w.
Proof.
  intros Ht Hno served. unfold served.
  assert (Hd : dispatch_request (POST_products payload) (advance_clock w) =
               (Raise AttributeError, advance_clock w))
    by now apply create_product_not_dict.
  rewrite (full_dispatch_request_run _ _ _ _ Hd). cbn [fst snd answer].
  split; [reflexivity|].
  destruct (advance_clock_store w) as (Hp & _ & Hdb & _ & Hf & Hl).
  match goal with
  | |- context [recorded ?r ?l ?resp (advance_clock ?x)] =>
      destruct (recorded_store r l resp x) as (Hp2 & _ & Hdb2 & _ & Hf2 & Hl2)
  end.
  repeat split; congruence.
Qed.

Lemma non_object_payload_fails_witness :
  fst (full_dispatch_request (POST_products (JArr [JInt 1])) (startup true []))
    = Ret (Response ErrorPage 500).
Proof.
  apply (non_object_payload_fails (JArr [JInt 1]) (startup true []));
    [reflexivity | discriminate].
Defined.

(** X17.  A scrape does not count itself: the exposition returned by
    [/metrics] is the registry as it was before the request, and the request
    is recorded only afterwards, under its own label. *)
Theorem scrape_does_not_count_itself (payload : json) (w : world) :
  let served := full_dispatch_request (Request GET "/metrics" payload) w in
  fst served =
    Ret (Response (Exposition (REQUEST_COUNT w) (REQUEST_LATENCY w)) 200) /\
  count_of (app_name, "GET", "/metrics", 200) (snd served) =
    S (count_of (app_name, "GET", "/metrics", 200) w) /\
  length (observations_of (app_name, "GET", "/metrics") (snd served)) =
    S (length (observations_of (app_name, "GET", "/metrics") w)).
Proof.
  intros served. unfold served.
  assert (Hreg : REQUEST_COUNT (advance_clock w) = REQUEST_COUNT w /\
                 REQUEST_LATENCY (advance_clock w) = REQUEST_LATENCY w)
    by (unfold advance_clock; now destruct (clock w)).
  destruct Hreg as [Hcnt Hlat].
  assert (Hd : dispatch_request (Request GET "/metrics" payload)
                 (advance_clock w) =
               (Ret (Response (Exposition (REQUEST_COUNT w) (REQUEST_LATENCY w))
                       200),
                advance_clock w)).
  { change (dispatch_request (Request GET "/metrics" payload)) with metrics.
    unfold metrics. py. now rewrite Hcnt, Hlat. }
  split.
  - now rewrite (full_dispatch_request_run _ _ _ _ Hd).
  - destruct (serve_registry (Request GET "/metrics" payload) w)
      as (resp & latency & Hr & Hc & Hl & _).
    rewrite (full_dispatch_request_run _ _ _ _ Hd) in Hr.
    injection Hr as <-.
    unfold count_of, observations_of. rewrite Hc, Hl.
    cbn [method path method_name status_code answer].
    rewrite !lookup_insert_eq. cbn [default from_option id].
    split; [reflexivity|]. rewrite length_app. cbn [length].
    apply Nat.add_1_r.
Qed.



(** X19.  While the backend answers, the only request that is answered 500
    is a create whose payload is truthy and not a JSON object: in every
    state the application reaches from start-up, with or without a client,
    no read and no well-formed write fails. *)
Theorem only_a_bad_payload_gives_500
    (history : list event) (ping_ok : bool) (ticks : list Z)
    (req : request) (resp : response) :
  let w := run history (startup ping_ok ticks) in
  fst (full_dispatch_request req w) = Ret resp ->
  status_code resp = 500 ->
  method req = POST /\ path req = "/api/products" /\
  truthy (request_json req) = true /\
  forall fields, request_json req <> JObj fields.
Proof.
  intros w Hr Hst.
  pose proof (run_sound history _ (sound_startup ping_ok ticks)) as Hsound.
  fold w in Hsound. apply advance_clock_sound in Hsound.
  rewrite full_dispatch_request_answer in Hr. injection Hr as <-.
  revert Hst. generalize dependent (advance_clock w). intros w0 Hsound.
  unfold dispatch_request.
  destruct (match_url (path req)) as [[rule product_id]|] eqn:Hm;
    [|discriminate].
  assert (Hlist : status_code (answer (fst (get_products w0))) = 500 -> False).
  { destruct (get_products_sound w0 Hsound) as (_ & _ & _ & ->). discriminate. }
  assert (Hitem : status_code (answer (fst (get_product product_id w0))) = 500
                  -> False).
  { destruct (get_product_sound w0 Hsound product_id) as (_ & _ & _ & -> & _).
    unfold source_product. now destruct (truthy _). }
  destruct (method req), rule; try discriminate;
    try (intros H; now destruct (Hlist H));
    try (intros H; now destruct (Hitem H));
    try (rewrite health_check_eq; discriminate).
  destruct (create_product_sound w0 (request_json req) Hsound)
    as (_ & _ & Hpair).
  apply (f_equal fst) in Hpair. cbn [fst] in Hpair. rewrite Hpair.
  pose proof (match_url_static _ _ _ Hm ltac:(discriminate)) as Hp.
  unfold source_create.
  destruct (truthy (request_json req)) eqn:Ht; cbn [negb]; [|discriminate].
  destruct (request_json req); try discriminate;
    intros _; repeat split; try assumption; discriminate.
Qed.

Lemma only_a_bad_payload_gives_500_witness :
  truthy (request_json (POST_products (JStr "x"))) = true.
Proof.
  apply (only_a_bad_payload_gives_500 [] true [] (POST_products (JStr "x"))
           (Response ErrorPage 500)); reflexivity.
Defined.

(** * Further properties: the miss path and the size of the list *)

(** X20.  A miss is answered from [PRODUCTS] and what was answered is what
    gets stored: with a working client, when the key is missing or expired,
    or holds the empty byte string, a catalogue read returns the source's
    answer; an answer with status 200 is stored under the key, and a 404
    leaves the backend as it was. *)
Theorem miss_is_answered_from_source_and_stored (req : request) (w : world) :
  is_catalogue_read req = true ->
  redis_client w = true -> redis_faults w = [] ->
  cached_bytes (cache_key_of req) w = None \/
  cached_bytes (cache_key_of req) w = Some BytesEmpty ->
  let w' := snd (full_dispatch_request req w) in
  fst (full_dispatch_request req w) = Ret (source_answer req (PRODUCTS w)) /\
  (forall v, source_answer req (PRODUCTS w) = Response (Json v) 200 ->
             cached_bytes (cache_key_of req) w' = Some (BytesJson v)) /\
  (status_code (source_answer req (PRODUCTS w)) = 404 ->
   redis_db w' = redis_db w).
Proof.
  intros Hread Hc Hf Hcb w'. unfold w'.
  destruct (advance_clock_store w) as (Hp0 & Hc0 & Hdb0 & Hn0 & Hf0 & _).
  set (w0 := advance_clock w) in *.
  assert (Hc' : redis_client w0 = true) by congruence.
  assert (Hf' : redis_faults w0 = []) by congruence.
  assert (Hg : get_cached_data (cache_key_of req) w0 = (Ret JNull, w0)).
  { rewrite get_cached_data_ok by assumption.
    unfold w0. rewrite cached_bytes_advance_clock.
    now destruct Hcb as [-> | ->]. }
  rewrite full_dispatch_request_eq. fold w0.
  rewrite (catalogue_read_view req Hread).
  unfold cache_key_of, source_answer in *.
  destruct (match_url (path req)) as [[[] product_id]|].
  1-3, 5: rewrite (get_products_miss w0 JNull w0 Hg eq_refl);
          rewrite load_products_ok by assumption;
          cbn [fst snd answer];
          match goal with
          | |- context [recorded ?r ?l ?resp (advance_clock ?x)] =>
              destruct (recorded_store r l resp x)
                as (_ & _ & Hdb2 & Hn2 & _ & _)
          end;
          unfold cached_bytes; rewrite Hdb2, Hn2, Hp0; py;
          (split; [reflexivity|]); (split; [|discriminate]);
          intros v [= <-]; rewrite lookup_insert_eq;
          now apply live_value_fresh.
  rewrite (get_product_miss w0 product_id JNull w0 Hg eq_refl).
  unfold source_product. rewrite <- Hp0.
  destruct (truthy (next_product product_id (PRODUCTS w0))) eqn:Ht.
  - rewrite load_product_ok by assumption. cbn [fst snd answer].
    match goal with
    | |- context [recorded ?r ?l ?resp (advance_clock ?x)] =>
        destruct (recorded_store r l resp x) as (_ & _ & Hdb2 & Hn2 & _ & _)
    end.
    unfold cached_bytes. rewrite Hdb2, Hn2. py.
    split; [reflexivity|]. split; [|discriminate].
    intros v [= <-]. rewrite lookup_insert_eq. now apply live_value_fresh.
  - rewrite load_product_absent by assumption. cbn [fst snd answer].
    match goal with
    | |- context [recorded ?r ?l ?resp (advance_clock ?x)] =>
        destruct (recorded_store r l resp x) as (_ & _ & Hdb2 & _ & _ & _)
    end.
    rewrite Hdb2. py.
    split; [reflexivity|]. split; [discriminate|]. now intros _.
Qed.

Lemma miss_is_answered_from_source_and_stored_witness :
  fst (full_dispatch_request GET_products empty_cached) =
    Ret (Response (Json (products_json SAMPLE_PRODUCTS)) 200) /\
  cached_bytes "all_products"
    (snd (full_dispatch_request GET_products empty_cached)) =
    Some (BytesJson (products_json SAMPLE_PRODUCTS)).
Proof.
  destruct (miss_is_answered_from_source_and_stored GET_products empty_cached)
    as (Hr & Hstore & _); try reflexivity; [now right|].
  split; [exact Hr|]. now apply Hstore.
Defined.

Lemma source_after_length req ps :
  length (source_after req ps) =
    (length ps + if is_accepted_create (Serve req) then 1 else 0)%nat.
Proof.
  unfold source_after, is_accepted_create, source_create.
  destruct (method req); try lia.
  destruct (match_url (path req)) as [[[] product_id]|]; try lia.
  destruct (request_json req) as [|b|n|m e|s|items|[|f fields]];
    cbn [truthy negb snd]; try lia;
    try (destruct (negb _); cbn [snd]; lia).
  rewrite length_app. cbn [length]. lia.
Qed.

(** X21.  Every accepted create adds exactly one record and nothing else
    adds any: after any history, in any world, the list is longer by the
    number of POSTs to [/api/products] that carried a non-empty JSON object
    (counted also when the invalidation raised). *)
Theorem list_grows_by_accepted_creates (history : list event) (w : world) :
  length (PRODUCTS (run history w)) =
    (length (PRODUCTS w)
     + length (List.filter is_accepted_create history))%nat.
Proof.
  rewrite run_products. generalize (PRODUCTS w). clear w.
  induction history as [|e history IH]; intros ps; [cbn; lia|].
  cbn [source_run fold_left List.filter]. fold (source_run history).
  change (fold_left _ history ?x) with (source_run history x).
  rewrite IH.
  destruct e as [req|seconds|key]; cbn [is_accepted_create length]; try lia.
  rewrite source_after_length. unfold is_accepted_create.
  destruct (method req), (match_url (path req)) as [[[] ?]|],
    (request_json req) as [|?|?|? ?|?|?|[|? ?]]; cbn [length]; lia.
Qed.
